(** * torchao: QAT linear layers and the MXTensor operator table

    A shallow embedding of
    - [torchao/quantization/prototype/qat/api.py] (the fake-quantized linear
      layers and the two-step QAT quantizers), and
    - [torchao/prototype/mx_formats/mx_ops.py] (the handlers of
      [MX_OPS_TABLE]).

    Python functions that may raise are functions into [res]; the operators
    of the host tensor runtime and the helpers imported from other torchao
    modules are fields of the interfaces [Torch], [QuantPrimitives] and
    [MXHelpers], so that every statement below holds for any runtime. *)

From Stdlib Require Import ZArith QArith Qround Qabs List String Bool Lia.
Import ListNotations.
Local Open Scope string_scope.
Local Open Scope Z_scope.

Set Implicit Arguments.
Local Set Warnings "-register-all".

(** ** Exceptions and fallible computations *)

Inductive exn : Type :=
| AssertionError
| ValueError
| TypeError
| IndexError
| KeyError
| AttributeError
| ZeroDivisionError
| RuntimeError.

Inductive res (A : Type) : Type :=
| Ok (a : A)
| Raise (e : exn).

Arguments Ok {A} a.
Arguments Raise {A} e.

Definition bind {A B : Type} (c : res A) (k : A -> res B) : res B :=
  match c with
  | Ok a => k a
  | Raise e => Raise e
  end.

Declare Scope res_scope.
Delimit Scope res_scope with res.
Notation "x <- c ;; k" := (bind c (fun x => k))
  (at level 61, c at next level, right associativity) : res_scope.
Notation "' p <- c ;; k" := (bind c (fun x => let 'p := x in k))
  (at level 61, p pattern, c at next level, right associativity) : res_scope.
Local Open Scope res_scope.

Definition returns {A : Type} (c : res A) : bool :=
  match c with Ok _ => true | Raise _ => false end.

Definition fails {A : Type} (c : res A) : Prop := returns c = false.

(** Python's [assert cond]. *)
Definition assert_ (cond : bool) : res unit :=
  if cond then Ok tt else Raise AssertionError.

(** Python's [a % b] on ints: the sign follows the divisor, as [Z.modulo]
    does, and a zero divisor raises. *)
Definition py_mod (a b : Z) : res Z :=
  if b =? 0 then Raise ZeroDivisionError else Ok (a mod b).

(** ** Dtypes and tags *)

(** [torch.dtype] values together with the element-format tags of
    [mx_formats.constants] that [mx_ops.py] compares against. *)
Inductive dtype : Type :=
| float64
| float32
| float16
| bfloat16
| int32
| int8
| uint8
| float8_e4m3fn
| float8_e5m2
| DTYPE_FP4_E2M1
| DTYPE_FP4_E3M0.

Definition dtype_eqb (a b : dtype) : bool :=
  match a, b with
  | float64, float64 | float32, float32 | float16, float16
  | bfloat16, bfloat16 | int32, int32 | int8, int8 | uint8, uint8
  | float8_e4m3fn, float8_e4m3fn | float8_e5m2, float8_e5m2
  | DTYPE_FP4_E2M1, DTYPE_FP4_E2M1 | DTYPE_FP4_E3M0, DTYPE_FP4_E3M0 => true
  | _, _ => false
  end.

(** [torchao.quantization.quant_primitives.ZeroPointDomain]. *)
Inductive ZeroPointDomain : Type := INT | FLOAT.

(** ** The host runtime *)

(** What the two files consume from torch: tensors are opaque. *)
Class Torch : Type := {
  Tensor : Type;
  Device : Type;
  (** [torch.nn.Linear.__init__(in_features, out_features, bias, device=,
      dtype=)]: the freshly initialised weight. *)
  Linear_init : Z -> Z -> bool -> option Device -> dtype -> res Tensor;
  (** [F.linear(input, weight)]. *)
  F_linear : Tensor -> Tensor -> res Tensor;
  (** [tensor.to(dtype)]. *)
  Tensor_to : Tensor -> dtype -> res Tensor;
  (** [tensor.t()]. *)
  Tensor_t : Tensor -> res Tensor;
  (** [tensor.is_contiguous()]. *)
  is_contiguous : Tensor -> bool
}.

(** What [qat/api.py] imports from the rest of torchao.  An optional
    argument that a call site leaves out is [None] here, so the callee's
    default is not fixed by this file. *)
Class QuantPrimitives `{Torch} : Type := {
  (** [_choose_qparams_per_token_asymmetric(x, scales_precision,
      zero_points_precision)]. *)
  _choose_qparams_per_token_asymmetric :
    Tensor -> dtype -> dtype -> res (Tensor * Tensor);
  (** [_fake_quantize_per_token(x, scales, zero_points, qmin, qmax)]. *)
  _fake_quantize_per_token :
    Tensor -> Tensor -> Tensor -> Z -> Z -> res Tensor;
  (** [get_group_qparams_symmetric(w, n_bit, groupsize[, precision])]. *)
  get_group_qparams_symmetric :
    Tensor -> Z -> Z -> option dtype -> res (Tensor * Tensor);
  (** [_fake_quantize_per_channel_group(input, scales, zero_points, qmin,
      qmax, group_size[, zero_point_domain])]. *)
  _fake_quantize_per_channel_group :
    Tensor -> Tensor -> Tensor -> Z -> Z -> Z -> option ZeroPointDomain ->
    res Tensor;
  (** [get_groupwise_affine_qparams(w, n_bit, groupsize, dtype)]. *)
  get_groupwise_affine_qparams :
    Tensor -> Z -> Z -> dtype -> res (Tensor * Tensor);
  (** [_check_linear_int4_k(k, groupsize, inner_k_tiles)]. *)
  _check_linear_int4_k : Z -> Z -> Z -> res bool;
  (** [_quantized_decomposed_quantize_per_channel_group_wrapper(input,
      scales, zero_points, qmin, qmax, dtype, group_size)]. *)
  _quantized_decomposed_quantize_per_channel_group_wrapper :
    Tensor -> Tensor -> Tensor -> Z -> Z -> dtype -> Z -> res Tensor;
  (** [Int8DynActInt4WeightLinear.__init__(in_features, out_features,
      bias=, groupsize=, precision=, scales_precision=)]: the buffers
      [weight], [scales] and [zeros] it registers. *)
  Int8DynActInt4WeightLinear_init :
    Z -> Z -> bool -> Z -> dtype -> dtype -> res (Tensor * Tensor * Tensor)
}.

(** ** [Int8DynActInt4WeightQATLinear] *)

Module Int8DynActInt4WeightQATLinear.
Section Layer.
Context {T : Torch} {QP : QuantPrimitives}.

(** The attributes of the layer; [bias] is always [None] on a constructed
    layer and is left out. *)
Record t : Type := mk {
  in_features : Z;
  out_features : Z;
  weight : Tensor;
  groupsize : Z;
  precision : dtype;
  scales_precision : dtype;
  zero_points_precision : dtype;
  _fake_quant_enabled : bool
}.

Definition __init__ (in_features out_features : Z) (bias : bool)
    (device : option Device) (groupsize : Z)
    (precision scales_precision : dtype) : res t :=
  w <- Linear_init in_features out_features bias device precision ;;
  r <- py_mod in_features groupsize ;;
  _ <- assert_ (r =? 0) ;;
  _ <- assert_ (negb bias) ;;
  Ok {| in_features := in_features;
        out_features := out_features;
        weight := w;
        groupsize := groupsize;
        precision := precision;
        scales_precision := scales_precision;
        zero_points_precision := int32;
        _fake_quant_enabled := true |}.

Definition enable_fake_quant (self : t) (enabled : bool) : t :=
  {| in_features := in_features self;
     out_features := out_features self;
     weight := weight self;
     groupsize := groupsize self;
     precision := precision self;
     scales_precision := scales_precision self;
     zero_points_precision := zero_points_precision self;
     _fake_quant_enabled := enabled |}.

Definition disable_fake_quant (self : t) : t := enable_fake_quant self false.

(** The optimizer step of the training loop: the weight is replaced. *)
Definition set_weight (self : t) (w : Tensor) : t :=
  {| in_features := in_features self;
     out_features := out_features self;
     weight := w;
     groupsize := groupsize self;
     precision := precision self;
     scales_precision := scales_precision self;
     zero_points_precision := zero_points_precision self;
     _fake_quant_enabled := _fake_quant_enabled self |}.

(** [n_bit] is 8 or 4 at every call site (for [n_bit < 1] Python's [**]
    leaves the integers). *)
Definition _get_qmin_qmax (n_bit : Z) : Z * Z :=
  (- (2 ^ (n_bit - 1)), 2 ^ (n_bit - 1) - 1).

(** [forward] reads [self] and returns the output only: no attribute of
    the layer is assigned. *)
Definition forward (self : t) (x : Tensor) : res Tensor :=
  x_fq <- (if _fake_quant_enabled self then
             '(act_scales, act_zp) <-
               _choose_qparams_per_token_asymmetric
                 x (scales_precision self) (zero_points_precision self) ;;
             let '(act_qmin, act_qmax) := _get_qmin_qmax 8 in
             _fake_quantize_per_token x act_scales act_zp act_qmin act_qmax
           else Ok x) ;;
  w_fq <- (if _fake_quant_enabled self then
             '(weight_scales, weight_zp) <-
               get_group_qparams_symmetric
                 (weight self) 4 (groupsize self)
                 (Some (scales_precision self)) ;;
             weight_zp <- Tensor_to weight_zp (zero_points_precision self) ;;
             let '(weight_qmin, weight_qmax) := _get_qmin_qmax 4 in
             _fake_quantize_per_channel_group
               (weight self) weight_scales weight_zp weight_qmin weight_qmax
               (groupsize self) None
           else Ok (weight self)) ;;
  F_linear x_fq w_fq.

End Layer.
End Int8DynActInt4WeightQATLinear.

(** ** [Int4WeightOnlyQATLinear] and [Int4WeightOnlyQATQuantizer] *)

Module Int4WeightOnlyQATLinear.
Section Layer.
Context {T : Torch} {QP : QuantPrimitives}.

Record t : Type := mk {
  in_features : Z;
  out_features : Z;
  weight : Tensor;
  groupsize : Z;
  inner_k_tiles : Z;
  precision : dtype;
  scales_precision : dtype;
  _fake_quant_enabled : bool
}.

Definition __init__ (in_features out_features : Z) (bias : bool)
    (device : option Device) (groupsize inner_k_tiles : Z)
    (precision scales_precision : dtype) : res t :=
  w <- Linear_init in_features out_features bias device precision ;;
  _ <- assert_ (negb bias) ;;
  _ <- assert_ (dtype_eqb scales_precision bfloat16) ;;
  ok <- _check_linear_int4_k in_features groupsize inner_k_tiles ;;
  if negb ok then Raise ValueError
  else
    Ok {| in_features := in_features;
          out_features := out_features;
          weight := w;
          groupsize := groupsize;
          inner_k_tiles := inner_k_tiles;
          precision := precision;
          scales_precision := scales_precision;
          _fake_quant_enabled := true |}.

Definition enable_fake_quant (self : t) (enabled : bool) : t :=
  {| in_features := in_features self;
     out_features := out_features self;
     weight := weight self;
     groupsize := groupsize self;
     inner_k_tiles := inner_k_tiles self;
     precision := precision self;
     scales_precision := scales_precision self;
     _fake_quant_enabled := enabled |}.

Definition disable_fake_quant (self : t) : t := enable_fake_quant self false.

Definition forward (self : t) (x : Tensor) : res Tensor :=
  let n_bit := 4 in
  let qmin := 0 in
  let qmax := 2 ^ n_bit - 1 in
  '(scales, zero_points) <-
    get_groupwise_affine_qparams
      (weight self) n_bit (groupsize self) (scales_precision self) ;;
  w_fq <- _fake_quantize_per_channel_group
            (weight self) scales zero_points qmin qmax (groupsize self)
            (Some FLOAT) ;;
  F_linear x w_fq.

End Layer.
End Int4WeightOnlyQATLinear.

Module Int4WeightOnlyQATQuantizer.

Record t : Type := mk {
  inner_k_tiles : option Z;
  groupsize : Z;
  precision : dtype;
  scales_precision : dtype
}.

(** Python's [x in [a, b, ...]] on ints. *)
Definition in_list (x : Z) (l : list Z) : bool := existsb (Z.eqb x) l.

(** [inner_k_tiles] is [Optional[int]]: [None in [2, 4, 8]] is [False]. *)
Definition __init__ (groupsize : Z) (inner_k_tiles : option Z)
    (precision scales_precision : dtype) : res t :=
  _ <- assert_ (match inner_k_tiles with
                | Some k => in_list k [2; 4; 8]
                | None => false
                end) ;;
  _ <- assert_ (in_list groupsize [32; 64; 128; 256]) ;;
  Ok {| inner_k_tiles := inner_k_tiles;
        groupsize := groupsize;
        precision := precision;
        scales_precision := scales_precision |}.

End Int4WeightOnlyQATQuantizer.

(** ** The 8da4w quantizer: [convert] *)

Module Int8DynActInt4WeightLinear.
Section Layer.
Context {T : Torch} {QP : QuantPrimitives}.

(** Modelled from the spec: the class [Int8DynActInt4WeightLinear] of
    [torchao.quantization.GPTQ], the true quantized layer that holds the
    quantized weight and its qparams as fixed buffers, next to the sizes,
    the group size and the precision it is constructed for.  The precision
    of the scales is no attribute of it: it is the dtype of the two qparam
    buffers. *)
Record t : Type := mk {
  in_features : Z;
  out_features : Z;
  groupsize : Z;
  precision : dtype;
  weight : Tensor;
  scales : Tensor;
  zeros : Tensor
}.

(** Modelled from the spec: the constructor of the class.  The runtime
    checks the arguments and allocates the three buffers ([scales] and
    [zeros] in [scales_precision]); the object keeps the sizes, the group
    size and the precision. *)
Definition __init__ (in_features out_features : Z) (bias : bool)
    (groupsize : Z) (precision scales_precision : dtype) : res t :=
  '(w0, s0, z0) <-
    Int8DynActInt4WeightLinear_init
      in_features out_features bias groupsize precision scales_precision ;;
  Ok {| in_features := in_features;
        out_features := out_features;
        groupsize := groupsize;
        precision := precision;
        weight := w0; scales := s0; zeros := z0 |}.

Definition set_weight (self : t) (w : Tensor) : t :=
  {| in_features := in_features self; out_features := out_features self;
     groupsize := groupsize self; precision := precision self;
     weight := w; scales := scales self; zeros := zeros self |}.

Definition set_scales (self : t) (s : Tensor) : t :=
  {| in_features := in_features self; out_features := out_features self;
     groupsize := groupsize self; precision := precision self;
     weight := weight self; scales := s; zeros := zeros self |}.

Definition set_zeros (self : t) (z : Tensor) : t :=
  {| in_features := in_features self; out_features := out_features self;
     groupsize := groupsize self; precision := precision self;
     weight := weight self; scales := scales self; zeros := z |}.

End Layer.
End Int8DynActInt4WeightLinear.

Module QAT := Int8DynActInt4WeightQATLinear.
Module Q8 := Int8DynActInt4WeightLinear.

Section Convert.
Context {T : Torch} {QP : QuantPrimitives}.

(** A module tree whose module objects are all different: the two linear
    classes [_convert_qat_linear_8da4w] tests for and builds (neither has
    children), and any other module with its [named_children()], in
    order.  Module objects that are registered under several names are
    the subject of [Heap] below. *)
Inductive nn_Module : Type :=
| QATLinear (l : QAT.t)
| QuantizedLinear (q : Q8.t)
| Other (cls : string) (children : list (string * nn_Module)).

(** The body of the [isinstance] branch: what [quantized_linear] is once
    its three attributes are assigned.  The qparams are computed without a
    precision argument. *)
Definition convert_child (child : QAT.t) : res Q8.t :=
  quantized_linear <-
    Q8.__init__
      (QAT.in_features child) (QAT.out_features child) false
      (QAT.groupsize child) (QAT.precision child)
      (QAT.scales_precision child) ;;
  let n_bit := 4 in
  let '(qmin, qmax) := QAT._get_qmin_qmax n_bit in
  '(s, zp) <-
    get_group_qparams_symmetric
      (QAT.weight child) n_bit (QAT.groupsize child) None ;;
  q_weight <-
    _quantized_decomposed_quantize_per_channel_group_wrapper
      (QAT.weight child) s zp qmin qmax int8 (QAT.groupsize child) ;;
  let quantized_linear := Q8.set_weight quantized_linear q_weight in
  let quantized_linear := Q8.set_scales quantized_linear s in
  let quantized_linear := Q8.set_zeros quantized_linear zp in
  Ok quantized_linear.

(** The loop [for name, child in module.named_children()] with the
    recursive call [rec]: the children after the loop. *)
Definition for_named_children (rec : nn_Module -> res nn_Module)
  : list (string * nn_Module) -> res (list (string * nn_Module)) :=
  fix loop (cs : list (string * nn_Module)) :=
    match cs with
    | [] => Ok []
    | (name, child) :: rest =>
        child' <- match child with
                  | QATLinear l =>
                      q <- convert_child l ;; Ok (QuantizedLinear q)
                  | _ => rec child
                  end ;;
        rest' <- loop rest ;;
        Ok ((name, child') :: rest')
    end.

(** The module is mutated in place in Python; here the mutated module is
    returned. *)
Fixpoint _convert_qat_linear_8da4w (module : nn_Module) : res nn_Module :=
  match module with
  | Other cls children =>
      children' <- for_named_children _convert_qat_linear_8da4w children ;;
      Ok (Other cls children')
  | _ => Ok module
  end.

(** [Int8DynActInt4WeightQATQuantizer.convert]. *)
Definition convert (model : nn_Module) : res nn_Module :=
  _convert_qat_linear_8da4w model.


End Convert.

(** ** [convert] on module objects *)

(** Modules are objects: one object can be registered under several names,
    of one parent or of several.  [_convert_qat_linear_8da4w] mutates the
    parents in place and allocates the quantized layers; here the objects
    live in a heap, a module is the address of its object, and the mutated
    heap is returned. *)
Module Heap.
Section Objects.
Context {T : Torch} {QP : QuantPrimitives}.

Definition oid : Type := nat.

(** A module object: one of the two linear classes, or any other module
    with its [_modules] dict (a name is bound to a module or to
    [None]). *)
Inductive module_object : Type :=
| QATLinearObj (l : QAT.t)
| QuantizedLinearObj (q : Q8.t)
| OtherObj (cls : string) (_modules : list (string * option oid)).

Definition heap : Type := list module_object.

(** The heap with the object at [id] replaced. *)
Fixpoint update (h : heap) (id : oid) (o : module_object) : heap :=
  match h, id with
  | [], _ => []
  | _ :: h', O => o :: h'
  | x :: h', S id' => x :: update h' id' o
  end.

(** [module in memo]. *)
Definition in_memo (module : oid) (memo : list oid) : bool :=
  existsb (Nat.eqb module) memo.

(** [torch.nn.Module.named_children()]: the names and modules of
    [_modules] in order, without the names bound to [None] and without
    the modules already yielded under an earlier name (the [memo] set). *)
Fixpoint named_children_from (memo : list oid)
    (_modules : list (string * option oid)) : list (string * oid) :=
  match _modules with
  | [] => []
  | (name, None) :: rest => named_children_from memo rest
  | (name, Some module) :: rest =>
      if in_memo module memo then named_children_from memo rest
      else (name, module) :: named_children_from (module :: memo) rest
  end.

Definition named_children (_modules : list (string * option oid))
  : list (string * oid) :=
  named_children_from [] _modules.

(** [_modules[name] = value]. *)
Fixpoint modules_set (_modules : list (string * option oid)) (name : string)
    (value : oid) : list (string * option oid) :=
  match _modules with
  | [] => [(name, Some value)]
  | (k, v) :: rest =>
      if String.eqb k name then (k, Some value) :: rest
      else (k, v) :: modules_set rest name value
  end.

(** [setattr(module, name, value)] for a module [value]: the entry of
    [module._modules] is rebound, in place. *)
Definition setattr (h : heap) (module : oid) (name : string) (value : oid)
  : res heap :=
  match nth_error h module with
  | Some (OtherObj cls _modules) =>
      Ok (update h module (OtherObj cls (modules_set _modules name value)))
  | _ => Raise AttributeError
  end.

(** The loop over [module.named_children()] with the recursive call
    [rec].  The new [Int8DynActInt4WeightLinear] is a new object, at the
    first free address.  (A name bound to an address outside the heap
    does not arise from Python objects; it raises here.) *)
Definition for_named_children (rec : heap -> oid -> res heap) (module : oid)
  : list (string * oid) -> heap -> res heap :=
  fix loop (items : list (string * oid)) (h : heap) :=
    match items with
    | [] => Ok h
    | (name, child) :: rest =>
        h' <- match nth_error h child with
              | Some (QATLinearObj l) =>
                  quantized_linear <- convert_child l ;;
                  setattr (h ++ [QuantizedLinearObj quantized_linear])%list
                          module name (List.length h)
              | Some _ => rec h child
              | None => Raise AttributeError
              end ;;
        loop rest h'
    end.

(** [limit] is the depth of recursion Python allows: beyond it the call
    raises [RecursionError], a [RuntimeError].  A linear layer has no
    children. *)
Fixpoint _convert_qat_linear_8da4w (limit : nat) (h : heap) (module : oid)
  : res heap :=
  match limit with
  | O => Raise RuntimeError
  | S limit' =>
      match nth_error h module with
      | Some (OtherObj cls _modules) =>
          for_named_children (_convert_qat_linear_8da4w limit') module
                             (named_children _modules) h
      | Some _ => Ok h
      | None => Raise AttributeError
      end
  end.

(** [Int8DynActInt4WeightQATQuantizer.convert]: the model it returns is
    the object it was given. *)
Definition convert (limit : nat) (h : heap) (model : oid) : res heap :=
  _convert_qat_linear_8da4w limit h model.

(** [getattr(module, name)] for the name of a child. *)
Fixpoint modules_get (_modules : list (string * option oid)) (name : string)
  : option oid :=
  match _modules with
  | [] => None
  | (k, v) :: rest => if String.eqb k name then v else modules_get rest name
  end.

Definition get_child (h : heap) (module : oid) (name : string)
  : option module_object :=
  match nth_error h module with
  | Some (OtherObj _ _modules) =>
      match modules_get _modules name with
      | Some child => nth_error h child
      | None => None
      end
  | _ => None
  end.

(** The heap once the flag of every 8da4w layer in it is set to
    [enabled]. *)
Definition set_fake_quant_object (enabled : bool) (o : module_object)
  : module_object :=
  match o with
  | QATLinearObj l => QATLinearObj (QAT.enable_fake_quant l enabled)
  | _ => o
  end.

Definition set_fake_quant (enabled : bool) (h : heap) : heap :=
  map (set_fake_quant_object enabled) h.





End Objects.
End Heap.

Section LayerAttributes.
Context {T : Torch}.

(** [layer.scales_precision = scales_precision]. *)
Definition with_scales_precision (l : QAT.t) (scales_precision : dtype)
  : QAT.t :=
  {| QAT.in_features := QAT.in_features l;
     QAT.out_features := QAT.out_features l;
     QAT.weight := QAT.weight l;
     QAT.groupsize := QAT.groupsize l;
     QAT.precision := QAT.precision l;
     QAT.scales_precision := scales_precision;
     QAT.zero_points_precision := QAT.zero_points_precision l;
     QAT._fake_quant_enabled := QAT._fake_quant_enabled l |}.

End LayerAttributes.

(** ** [mx_ops.py]: the handlers of [MX_OPS_TABLE] *)

Module MXTensor.
Section Fields.
Context {T : Torch}.

(** Modelled from the spec: the class [MXTensor] of
    [torchao.prototype.mx_formats.mx_tensor], a value that pairs the
    per-block exponents with the packed element data and three tags. *)
Record t : Type := mk {
  _scale_e8m0 : Tensor;
  _data : Tensor;
  _elem_dtype : dtype;
  _block_size : Z;
  _orig_dtype : dtype
}.

End Fields.
End MXTensor.

Section MXOps.
Context {T : Torch}.

(** The Python values that reach a handler in [args] and [kwargs]. *)
Inductive value : Type :=
| VNone
| VBool (b : bool)
| VInt (z : Z)
| VDtype (d : dtype)
| VTensor (t : Tensor)
| VMX (m : MXTensor.t)
| VList (l : list value)
| VTuple (l : list value)
| VDict (d : list (string * value)).

Definition dict : Type := list (string * value).

(** An aten operator called on plain arguments: positional arguments,
    keyword arguments, and the plain tensor it returns. *)
Definition aten_op_t : Type := list value -> dict -> res Tensor.

(** What [mx_ops.py] imports from [mx_tensor.py]. *)
Class MXHelpers : Type := {
  (** [MXTensor.to_dtype(self, target_dtype)]: the decoded plain tensor. *)
  to_dtype : MXTensor.t -> dtype -> res Tensor;
  (** [tensor_size_hp_to_fp4x2(orig_size, is_contiguous)]. *)
  tensor_size_hp_to_fp4x2 : value -> bool -> res value
}.

Context {MH : MXHelpers}.

(** [args[i]] on the argument tuple. *)
Definition getitem (args : list value) (i : nat) : res value :=
  match nth_error args i with
  | Some v => Ok v
  | None => Raise IndexError
  end.

Definition isinstance_MXTensor (v : value) : bool :=
  match v with VMX _ => true | _ => false end.

(** Reading one of the [_scale_e8m0], [_data], ... attributes of [v]: only
    an [MXTensor] has them. *)
Definition mx_attrs (v : value) : res MXTensor.t :=
  match v with
  | VMX m => Ok m
  | _ => Raise AttributeError
  end.

(** [**kwargs] in a call: [None] is not a mapping. *)
Definition star_star (kwargs : option dict) : res dict :=
  match kwargs with
  | Some d => Ok d
  | None => Raise TypeError
  end.

(** [key in kwargs] and [kwargs[key]]. *)
Fixpoint dict_get (d : dict) (key : string) : option value :=
  match d with
  | [] => None
  | (k, v) :: d' => if String.eqb k key then Some v else dict_get d' key
  end.

Definition dict_contains (d : dict) (key : string) : bool :=
  match dict_get d key with Some _ => true | None => false end.

Definition mx_desugar_op (aten_op : aten_op_t) (args : list value)
    (kwargs : option dict) : res value :=
  old <- getitem args 0 ;;
  old <- mx_attrs old ;;
  kw <- star_star kwargs ;;
  new_data <- aten_op (VTensor (MXTensor._data old) :: skipn 1 args) kw ;;
  let new :=
    {| MXTensor._scale_e8m0 := MXTensor._scale_e8m0 old;
       MXTensor._data := new_data;
       MXTensor._elem_dtype := MXTensor._elem_dtype old;
       MXTensor._block_size := MXTensor._block_size old;
       MXTensor._orig_dtype := MXTensor._orig_dtype old |} in
  Ok (VMX new).

Definition mx_mm (aten_op : aten_op_t) (args : list value)
    (kwargs : option dict) : res value :=
  a <- getitem args 0 ;;
  b <- getitem args 1 ;;
  match a, b with
  | VMX a, VMX b =>
      a_hp <- to_dtype a (MXTensor._orig_dtype a) ;;
      b_hp <- to_dtype b (MXTensor._orig_dtype b) ;;
      res <- aten_op [VTensor a_hp; VTensor b_hp] [] ;;
      Ok (VTensor res)
  | _, _ => Raise AssertionError
  end.

Definition mx_addmm (aten_op : aten_op_t) (args : list value)
    (kwargs : option dict) : res value :=
  a <- getitem args 0 ;;
  b <- getitem args 1 ;;
  c <- getitem args 2 ;;
  match b, c with
  | VMX b, VMX c =>
      b_hp <- to_dtype b (MXTensor._orig_dtype b) ;;
      c_hp <- to_dtype c (MXTensor._orig_dtype c) ;;
      res <- aten_op [a; VTensor b_hp; VTensor c_hp] [] ;;
      Ok (VTensor res)
  | _, _ => Raise AssertionError
  end.

Definition mx_t (aten_op : aten_op_t) (args : list value)
    (kwargs : option dict) : res value :=
  old <- getitem args 0 ;;
  old <- mx_attrs old ;;
  data_t <- Tensor_t (MXTensor._data old) ;;
  let new :=
    {| MXTensor._scale_e8m0 := MXTensor._scale_e8m0 old;
       MXTensor._data := data_t;
       MXTensor._elem_dtype := MXTensor._elem_dtype old;
       MXTensor._block_size := MXTensor._block_size old;
       MXTensor._orig_dtype := MXTensor._orig_dtype old |} in
  Ok (VMX new).

(** [torch.utils._pytree.tree_map] with a leaf function that may raise:
    lists, tuples and dicts are containers, every other value (an
    [MXTensor] and [None] included) is a leaf; leaves are visited from left
    to right. *)
Definition map_res {A B : Type} (f : A -> res B) : list A -> res (list B) :=
  fix go (l : list A) :=
    match l with
    | [] => Ok []
    | x :: l' => y <- f x ;; l'' <- go l' ;; Ok (y :: l'')
    end.

Fixpoint tree_map (f : value -> res value) (v : value) : res value :=
  match v with
  | VList l => l' <- map_res (tree_map f) l ;; Ok (VList l')
  | VTuple l => l' <- map_res (tree_map f) l ;; Ok (VTuple l')
  | VDict d =>
      d' <- map_res (fun kv => v' <- tree_map f (snd kv) ;; Ok (fst kv, v'))
                    d ;;
      Ok (VDict d')
  | leaf => f leaf
  end.

(** The local function [unwrap] of [mx_cast_up_op]. *)
Definition unwrap (x : value) : res value :=
  match x with
  | VMX m => x_hp <- to_dtype m (MXTensor._orig_dtype m) ;; Ok (VTensor x_hp)
  | _ => Ok x
  end.

(** [args] is a tuple and [kwargs] a dict or [None]: [tree_map] maps the
    elements of the one and the values of the other. *)
Definition mx_cast_up_op (aten_op : aten_op_t) (args : list value)
    (kwargs : option dict) : res value :=
  new_args <- map_res (tree_map unwrap) args ;;
  new_kwargs <- match kwargs with
                | Some d =>
                    d' <- map_res (fun kv => v' <- tree_map unwrap (snd kv) ;;
                                             Ok (fst kv, v')) d ;;
                    Ok (Some d')
                | None => Ok None
                end ;;
  kw <- star_star new_kwargs ;;
  res <- aten_op new_args kw ;;
  Ok (VTensor res).

Definition is_fp4 (elem_dtype : dtype) : bool :=
  dtype_eqb elem_dtype DTYPE_FP4_E2M1 || dtype_eqb elem_dtype DTYPE_FP4_E3M0.

Definition mx_view_op (aten_op : aten_op_t) (args : list value)
    (kwargs : option dict) : res value :=
  a0 <- getitem args 0 ;;
  a0 <- mx_attrs a0 ;;
  let data := MXTensor._data a0 in
  new_size <- getitem args 1 ;;
  new_size <- (if is_fp4 (MXTensor._elem_dtype a0)
               then tensor_size_hp_to_fp4x2 new_size (is_contiguous data)
               else Ok new_size) ;;
  kw <- star_star kwargs ;;
  new_data <- aten_op (VTensor data :: new_size :: skipn 2 args) kw ;;
  Ok (VMX {| MXTensor._scale_e8m0 := MXTensor._scale_e8m0 a0;
             MXTensor._data := new_data;
             MXTensor._elem_dtype := MXTensor._elem_dtype a0;
             MXTensor._block_size := MXTensor._block_size a0;
             MXTensor._orig_dtype := MXTensor._orig_dtype a0 |}).

(** [v in {torch.float16, torch.bfloat16}]: lists and dicts are not
    hashable, any other value that is not one of the two dtypes is simply
    not a member. *)
Definition in_autocast_dtypes (v : value) : res bool :=
  match v with
  | VDtype float16 | VDtype bfloat16 => Ok true
  | VList _ | VDict _ => Raise TypeError
  | _ => Ok false
  end.

(** [len(kwargs)] raises on [None].  Past the last assertion the target
    is one of the two dtypes, and it becomes the [_orig_dtype]. *)
Definition autocast_to_copy (aten_op : aten_op_t) (args : list value)
    (kwargs : option dict) : res value :=
  a0 <- getitem args 0 ;;
  _ <- assert_ (isinstance_MXTensor a0) ;;
  match kwargs with
  | None => Raise TypeError
  | Some kw =>
      _ <- assert_ (Nat.eqb (List.length kw) 1 && dict_contains kw "dtype") ;;
      match dict_get kw "dtype" with
      | None => Raise KeyError
      | Some target =>
          ok <- in_autocast_dtypes target ;;
          _ <- assert_ ok ;;
          match a0, target with
          | VMX a0, VDtype d =>
              let res :=
                {| MXTensor._scale_e8m0 := MXTensor._scale_e8m0 a0;
                   MXTensor._data := MXTensor._data a0;
                   MXTensor._elem_dtype := MXTensor._elem_dtype a0;
                   MXTensor._block_size := MXTensor._block_size a0;
                   MXTensor._orig_dtype := d |} in
              Ok (VMX res)
          | _, _ => Raise AssertionError
          end
      end
  end.

End MXOps.

(** ** A runtime to compute with: matrices of rationals *)

(** The helpers of torchao that the two files import
    ([torchao.quantization.utils], [GPTQ], [qat.utils],
    [mx_formats.mx_tensor]) and the torch operators they are applied to, over
    exact rationals: a tensor is a matrix as the list of its rows, a cast
    keeps the values, and the formulas are those of sections 4.1 and 4.2 of
    the specification.  The statements about the layers and handlers hold
    for every runtime; this one runs them on concrete inputs. *)
Module QTorch.

Local Open Scope Q_scope.

Definition tensor : Type := list (list Q).

(** *** Arithmetic on entries *)

Definition eps : Q := 1 # 1000000.

Definition Qmax (a b : Q) : Q := if Qle_bool a b then b else a.
Definition Qmin (a b : Q) : Q := if Qle_bool a b then a else b.

Definition maximum (l : list Q) : Q :=
  match l with
  | [] => 0
  | x :: l' => fold_left Qmax l' x
  end.

Definition minimum (l : list Q) : Q :=
  match l with
  | [] => 0
  | x :: l' => fold_left Qmin l' x
  end.

(** Rounding to the nearest integer, ties to the even one. *)
Definition round (q : Q) : Z :=
  let f := Qfloor q in
  match Qcompare (q - inject_Z f) (1 # 2) with
  | Lt => f
  | Gt => (f + 1)%Z
  | Eq => if Z.even f then f else (f + 1)%Z
  end.

Definition clamp (lo hi v : Z) : Z := Z.max lo (Z.min hi v).

(** [round(x / scale) + zero_point], clamped to [[qmin, qmax]]. *)
Definition quantize (scale zp : Q) (qmin qmax : Z) (x : Q) : Z :=
  clamp qmin qmax (round (x / scale) + round zp).

(** [(q - zero_point) * scale]. *)
Definition dequantize (scale zp : Q) (q : Z) : Q :=
  Qred ((inject_Z q - inject_Z (round zp)) * scale).

(** Float-domain zero point: [round((x - zero_point) / scale)], clamped,
    and back. *)
Definition quantize_float_zp (scale zp : Q) (qmin qmax : Z) (x : Q) : Z :=
  clamp qmin qmax (round ((x - zp) / scale)).

Definition dequantize_float_zp (scale zp : Q) (q : Z) : Q :=
  Qred (inject_Z q * scale + zp).

(** *** Shapes *)

(** The groups of [n] consecutive entries of a row. *)
Fixpoint groups_fuel (fuel n : nat) (l : list Q) : list (list Q) :=
  match fuel, l with
  | O, _ | _, [] => []
  | S fuel', _ => firstn n l :: groups_fuel fuel' n (skipn n l)
  end.

Definition groups (n : nat) (l : list Q) : list (list Q) :=
  groups_fuel (List.length l) n l.

Definition grouped (group_size : Z) (t : tensor) : bool :=
  (0 <? group_size)%Z &&
  forallb (fun row => (Z.of_nat (List.length row) mod group_size =? 0)%Z) t.

Fixpoint transpose (t : tensor) : tensor :=
  match t with
  | [] => []
  | [row] => map (fun x => [x]) row
  | row :: t' => map (fun p => fst p :: snd p) (combine row (transpose t'))
  end.

Definition dot (u v : list Q) : Q :=
  Qred (fold_right Qplus 0 (map (fun p => fst p * snd p) (combine u v))).

(** Entry [i] of a column of per-row parameters, entry [g] of a row of
    per-group parameters. *)
Definition entry (l : list Q) (i : nat) : Q := nth i l 0.
Definition row_of (t : tensor) (i : nat) : list Q := nth i t [].

Definition indexed {A : Type} (l : list A) : list (nat * A) :=
  combine (seq 0 (List.length l)) l.

(** *** torch *)

(** The initial weight is random in torch; here a fixed pattern of
    [out_features] rows of [in_features] entries. *)
Definition initial_weight (in_features out_features : Z) : tensor :=
  map (fun i =>
         map (fun j => Qred (inject_Z ((3 * Z.of_nat i + 5 * Z.of_nat j) mod 7 - 3) / 4))
             (seq 0 (Z.to_nat in_features)))
      (seq 0 (Z.to_nat out_features)).

Definition linear_weight (in_features out_features : Z) (bias : bool)
    (device : option unit) (d : dtype) : res tensor :=
  if ((in_features <? 0) || (out_features <? 0))%Z then Raise RuntimeError
  else Ok (initial_weight in_features out_features).

(** [F.linear(x, w)]: [x] times the transpose of [w]. *)
Definition linear (x w : tensor) : res tensor :=
  if forallb (fun r => forallb (fun c => Nat.eqb (List.length r) (List.length c)) w) x
  then Ok (map (fun r => map (dot r) w) x)
  else Raise RuntimeError.

#[export] Instance torch : Torch := {|
  Tensor := tensor;
  Device := unit;
  Linear_init := linear_weight;
  F_linear := linear;
  Tensor_to := fun t _ => Ok t;
  Tensor_t := fun t => Ok (transpose t);
  is_contiguous := fun _ => true
|}.

(** *** Quantization primitives (section 4.1) *)

(** Modelled from the spec: [_choose_qparams_per_token_asymmetric] of
    [qat.utils].  Per token, [scale = (max - min) / 255] floored at [eps]
    and [zero_point = qmin - round(min / scale)] clamped to the int8
    range. *)
Definition token_qparams (row : list Q) : Q * Q :=
  let scale := Qred (Qmax ((maximum row - minimum row) / 255) eps) in
  let zp := clamp (-128) 127 (-128 - round (minimum row / scale)) in
  (scale, inject_Z zp).

Definition choose_qparams_per_token_asymmetric (x : tensor)
    (scale_dtype zp_dtype : dtype) : res (tensor * tensor) :=
  Ok (map (fun row => [fst (token_qparams row)]) x,
      map (fun row => [snd (token_qparams row)]) x).

(** Modelled from the spec: [_fake_quantize_per_token] of [qat.utils].
    Every entry of token [i] is quantized and dequantized with the
    parameters of that token. *)
Definition fake_quantize_per_token (x scales zps : tensor) (qmin qmax : Z)
  : res tensor :=
  if Nat.eqb (List.length scales) (List.length x)
     && Nat.eqb (List.length zps) (List.length x)
  then
    Ok (map (fun '(i, row) =>
               let s := entry (row_of scales i) 0 in
               let z := entry (row_of zps i) 0 in
               map (fun v => dequantize s z (quantize s z qmin qmax v)) row)
            (indexed x))
  else Raise AssertionError.

(** Modelled from the spec: [get_group_qparams_symmetric] of
    [torchao.quantization.utils].  Per group, [scale = max(|group|) / qmax]
    with [qmax = 2^(n_bits-1) - 1], floored at [eps]; the zero point
    is 0. *)
Definition group_scale_symmetric (n_bit : Z) (g : list Q) : Q :=
  Qred (Qmax (maximum (map Qabs g) / inject_Z (2 ^ (n_bit - 1) - 1)) eps).

Definition group_qparams_symmetric (w : tensor) (n_bit group_size : Z)
    (precision : option dtype) : res (tensor * tensor) :=
  if grouped group_size w then
    Ok (map (fun row => map (group_scale_symmetric n_bit)
                            (groups (Z.to_nat group_size) row)) w,
        map (fun row => map (fun _ => 0)
                            (groups (Z.to_nat group_size) row)) w)
  else Raise AssertionError.

(** Modelled from the spec: [get_groupwise_affine_qparams] of [GPTQ].
    Per group, [scale = (max - min) / (2^n_bits - 1)] floored at [eps], and
    the float-domain zero point is the minimum of the group. *)
Definition group_scale_affine (n_bit : Z) (g : list Q) : Q :=
  Qred (Qmax ((maximum g - minimum g) / inject_Z (2 ^ n_bit - 1)) eps).

Definition groupwise_affine_qparams (w : tensor) (n_bit group_size : Z)
    (d : dtype) : res (tensor * tensor) :=
  if grouped group_size w then
    Ok (map (fun row => map (group_scale_affine n_bit)
                            (groups (Z.to_nat group_size) row)) w,
        map (fun row => map (fun g => Qred (minimum g))
                            (groups (Z.to_nat group_size) row)) w)
  else Raise AssertionError.

(** Every entry of group [g] of row [i] goes through [f scale zp], with the
    parameters of that group. *)
Definition per_channel_group (f : Q -> Q -> Q -> Q)
    (w scales zps : tensor) (group_size : Z) : res tensor :=
  if grouped group_size w then
    Ok (map (fun '(i, row) =>
               List.concat
                 (map (fun '(g, grp) =>
                         map (f (entry (row_of scales i) g)
                                (entry (row_of zps i) g)) grp)
                      (indexed (groups (Z.to_nat group_size) row))))
            (indexed w))
  else Raise AssertionError.

(** Modelled from the spec: [_fake_quantize_per_channel_group] of
    [qat.utils]; an omitted [zero_point_domain] is the integer domain. *)
Definition fake_quantize_per_channel_group (w scales zps : tensor)
    (qmin qmax group_size : Z) (domain : option ZeroPointDomain)
  : res tensor :=
  per_channel_group
    (fun s z v =>
       match domain with
       | Some FLOAT =>
           dequantize_float_zp s z (quantize_float_zp s z qmin qmax v)
       | _ => dequantize s z (quantize s z qmin qmax v)
       end)
    w scales zps group_size.

(** Modelled from the spec: the quantization of a weight "to its integer
    representation using those qparams"
    ([_quantized_decomposed_quantize_per_channel_group_wrapper]). *)
Definition quantize_per_channel_group (w scales zps : tensor)
    (qmin qmax : Z) (d : dtype) (group_size : Z) : res tensor :=
  per_channel_group (fun s z v => inject_Z (quantize s z qmin qmax v))
                    w scales zps group_size.

(** Modelled from the spec: [_check_linear_int4_k] of [GPTQ], as
    "[in_features] not divisible by [groupsize] is rejected". *)
Definition check_linear_int4_k (k group_size inner_k_tiles : Z) : res bool :=
  (r <- py_mod k group_size ;; Ok (r =? 0)%Z)%res.

Definition zeros (rows cols : Z) : tensor :=
  repeat (repeat 0 (Z.to_nat cols)) (Z.to_nat rows).

(** Modelled from the spec: the constructor of
    [Int8DynActInt4WeightLinear] in [GPTQ].  It rejects a bias and a group
    size that does not divide [in_features]; its buffers start as zeros. *)
Definition quantized_linear_buffers (in_features out_features : Z)
    (bias : bool) (group_size : Z) (precision scales_precision : dtype)
  : res (tensor * tensor * tensor) :=
  (r <- py_mod in_features group_size ;;
   _ <- assert_ (r =? 0)%Z ;;
   _ <- assert_ (negb bias) ;;
   Ok (zeros out_features in_features,
       zeros out_features (in_features / group_size),
       zeros out_features (in_features / group_size)))%res.

#[export] Instance quant : QuantPrimitives := {|
  _choose_qparams_per_token_asymmetric := choose_qparams_per_token_asymmetric;
  _fake_quantize_per_token := fake_quantize_per_token;
  get_group_qparams_symmetric := group_qparams_symmetric;
  _fake_quantize_per_channel_group := fake_quantize_per_channel_group;
  get_groupwise_affine_qparams := groupwise_affine_qparams;
  _check_linear_int4_k := check_linear_int4_k;
  _quantized_decomposed_quantize_per_channel_group_wrapper :=
    quantize_per_channel_group;
  Int8DynActInt4WeightLinear_init := quantized_linear_buffers
|}.

(** *** Block-scaled tensors (section 4.2) *)

(** Modelled from the spec: [MXTensor.to_dtype] of [mx_tensor.py].  The
    packed data holds the element values, the scale the biased exponents of
    the blocks (bias 127) in one row: every element is multiplied by
    [2^exponent] of its block. *)
Definition decode (m : MXTensor.t) (target : dtype) : res tensor :=
  let flat := List.concat (MXTensor._data m) in
  let exps := List.concat (MXTensor._scale_e8m0 m) in
  let bs := Z.to_nat (MXTensor._block_size m) in
  let blocks := groups bs flat in
  if Nat.ltb 0 bs
     && Nat.eqb (List.length flat) (List.length exps * bs)
  then
    let hp :=
      List.concat (map (fun '(k, blk) =>
                     map (fun v =>
                            Qred (v * Qpower 2 (Qfloor (entry exps k) - 127)))
                         blk)
                  (indexed blocks)) in
    Ok (groups (List.length (row_of (MXTensor._data m) 0)) hp)
  else Raise AssertionError.

Definition halve (v : value) : res value :=
  match v with
  | VInt z => Ok (VInt (z / 2))
  | _ => Raise TypeError
  end.

Fixpoint halve_last (l : list value) : res (list value) :=
  match l with
  | [] => Raise IndexError
  | [v] => (v' <- halve v ;; Ok [v'])%res
  | v :: l' => (l'' <- halve_last l' ;; Ok (v :: l''))%res
  end.

(** Modelled from the spec: [tensor_size_hp_to_fp4x2] of [mx_tensor.py].
    Half as many bytes along the packed axis: the last one of contiguous
    data, the first one otherwise. *)
Definition size_hp_to_fp4x2 (orig_size : value) (contiguous : bool)
  : res value :=
  match orig_size with
  | VList l | VTuple l =>
      if contiguous then (l' <- halve_last l ;; Ok (VList l'))%res
      else match l with
           | [] => Raise IndexError
           | v :: l' => (v' <- halve v ;; Ok (VList (v' :: l')))%res
           end
  | _ => Raise TypeError
  end.

#[export] Instance mx : MXHelpers := {|
  to_dtype := decode;
  tensor_size_hp_to_fp4x2 := size_hp_to_fp4x2
|}.

(** *** aten operators on plain tensors *)

Definition aten_detach : aten_op_t :=
  fun args kwargs =>
    match args, kwargs with
    | [VTensor t], [] => Ok t
    | _, _ => Raise TypeError
    end.

Definition aten_mm : aten_op_t :=
  fun args kwargs =>
    match args, kwargs with
    | [VTensor a; VTensor b], [] => linear a (transpose b)
    | _, _ => Raise TypeError
    end.

Definition aten_view : aten_op_t :=
  fun args kwargs =>
    match args, kwargs with
    | [VTensor t; VList [VInt r; VInt c]], [] =>
        if ((0 <=? r) && (0 <? c)
            && (r * c =? Z.of_nat (List.length (List.concat t))))%Z
        then Ok (groups (Z.to_nat c) (List.concat t))
        else Raise RuntimeError
    | _, _ => Raise TypeError
    end.

Definition total (l : list Q) : Q := Qred (fold_right Qplus 0 l).

(** [sum(t, dim)] for a matrix: [dim = [0]] adds the rows up, [dim = [1]]
    the columns. *)
Definition aten_sum_dim_IntList : aten_op_t :=
  fun args kwargs =>
    match args, kwargs with
    | [VTensor t; VList [VInt 0]], [] => Ok [map total (transpose t)]
    | [VTensor t; VList [VInt 1]], [] => Ok [map total t]
    | [VTensor _; _], [] => Raise RuntimeError
    | _, _ => Raise TypeError
    end.

(** [addmm(c, a, b)]: [c + a @ b], for [c] of the shape of the product. *)
Definition aten_addmm : aten_op_t :=
  fun args kwargs =>
    match args, kwargs with
    | [VTensor c; VTensor a; VTensor b], [] =>
        (ab <- linear a (transpose b) ;;
         Ok (map (fun rows =>
                    map (fun p => Qred (fst p + snd p))
                        (combine (fst rows) (snd rows)))
                 (combine c ab)))%res
    | _, _ => Raise TypeError
    end.

(** [cat(tensors, 0)]: the rows of the tensors of a list, in order. *)
Definition aten_cat : aten_op_t :=
  fun args kwargs =>
    match args, kwargs with
    | [VList tensors; VInt 0], [] =>
        (rows <- map_res (fun v => match v with
                                   | VTensor t => Ok t
                                   | _ => Raise TypeError
                                   end) tensors ;;
         Ok (List.concat rows))%res
    | _, _ => Raise TypeError
    end.

End QTorch.

(** ** What the specification says, as definitions *)

Module W4 := Int4WeightOnlyQATLinear.
Module W4Q := Int4WeightOnlyQATQuantizer.

Section Specifications.
Context {T : Torch} {QP : QuantPrimitives}.

(** "Dynamically fake-quantize input activations (8-bit asymmetric,
    per-token)". *)
Definition fake_quantize_activation (x : Tensor) (scales_precision
    zero_points_precision : dtype) : res Tensor :=
  '(scales, zero_points) <-
    _choose_qparams_per_token_asymmetric
      x scales_precision zero_points_precision ;;
  _fake_quantize_per_token x scales zero_points (-128) 127.

(** "... and weights (4-bit symmetric, per-group)". *)
Definition fake_quantize_weight_symmetric (w : Tensor) (groupsize : Z)
    (scales_precision zero_points_precision : dtype) : res Tensor :=
  '(scales, zero_points) <-
    get_group_qparams_symmetric w 4 groupsize (Some scales_precision) ;;
  zero_points <- Tensor_to zero_points zero_points_precision ;;
  _fake_quantize_per_channel_group w scales zero_points (-8) 7 groupsize None.

(** "Weights always fake-quantized (4-bit asymmetric, per-group,
    float-domain zero-point)", with [qmin = 0] and [qmax = 15]. *)
Definition fake_quantize_weight_affine (w : Tensor) (groupsize : Z)
    (scales_precision : dtype) : res Tensor :=
  '(scales, zero_points) <-
    get_groupwise_affine_qparams w 4 groupsize scales_precision ;;
  _fake_quantize_per_channel_group
    w scales zero_points 0 15 groupsize (Some FLOAT).

(** The true quantized layer [q] that stands for the fake-quantized layer
    [l]: same sizes, group size and precision, qparams computed
    symmetrically on 4 bits from
    the weight of [l], and the weight of [l] quantized per channel group to
    [[-8, 7]] with exactly these qparams. *)
Definition quantized_from (l : QAT.t) (q : Q8.t) : Prop :=
  Q8.in_features q = QAT.in_features l /\
  Q8.out_features q = QAT.out_features l /\
  Q8.groupsize q = QAT.groupsize l /\
  Q8.precision q = QAT.precision l /\
  get_group_qparams_symmetric (QAT.weight l) 4 (QAT.groupsize l) None
    = Ok (Q8.scales q, Q8.zeros q) /\
  _quantized_decomposed_quantize_per_channel_group_wrapper
    (QAT.weight l) (Q8.scales q) (Q8.zeros q) (-8) 7 int8 (QAT.groupsize l)
    = Ok (Q8.weight q).

(** Induction on a module tree, with the property available for every
    child. *)
Section nn_Module_induction.
Variable P : nn_Module -> Prop.
Hypothesis P_QATLinear : forall l, P (QATLinear l).
Hypothesis P_QuantizedLinear : forall q, P (QuantizedLinear q).
Hypothesis P_Other :
  forall cls children,
    Forall (fun c => P (snd c)) children -> P (Other cls children).

End nn_Module_induction.



End Specifications.

Section MXSpecifications.
Context {T : Torch} {MH : MXHelpers}.

(** The metadata of a block-scaled tensor: everything but the packed
    data. *)
Definition same_metadata (old new : MXTensor.t) : Prop :=
  MXTensor._scale_e8m0 new = MXTensor._scale_e8m0 old /\
  MXTensor._elem_dtype new = MXTensor._elem_dtype old /\
  MXTensor._block_size new = MXTensor._block_size old /\
  MXTensor._orig_dtype new = MXTensor._orig_dtype old.

(** [old] with other packed data. *)
Definition with_data (old : MXTensor.t) (data : Tensor) : MXTensor.t :=
  {| MXTensor._scale_e8m0 := MXTensor._scale_e8m0 old;
     MXTensor._data := data;
     MXTensor._elem_dtype := MXTensor._elem_dtype old;
     MXTensor._block_size := MXTensor._block_size old;
     MXTensor._orig_dtype := MXTensor._orig_dtype old |}.

(** [old] with another declared original dtype. *)
Definition with_orig_dtype (old : MXTensor.t) (d : dtype) : MXTensor.t :=
  {| MXTensor._scale_e8m0 := MXTensor._scale_e8m0 old;
     MXTensor._data := MXTensor._data old;
     MXTensor._elem_dtype := MXTensor._elem_dtype old;
     MXTensor._block_size := MXTensor._block_size old;
     MXTensor._orig_dtype := d |}.

(** Induction on a value, with the property available for every element of
    a container. *)
Section value_induction.
Variable P : value -> Prop.
Hypothesis P_leaf :
  forall v,
    match v with VList _ | VTuple _ | VDict _ => False | _ => True end -> P v.
Hypothesis P_VList : forall l, Forall P l -> P (VList l).
Hypothesis P_VTuple : forall l, Forall P l -> P (VTuple l).
Hypothesis P_VDict : forall d, Forall (fun kv => P (snd kv)) d -> P (VDict d).

Fixpoint value_tree_ind (v : value) : P v :=
  match v with
  | VList l =>
      P_VList ((fix elements (l : list value) : Forall P l :=
                  match l with
                  | [] => Forall_nil _
                  | x :: l' => Forall_cons x (value_tree_ind x) (elements l')
                  end) l)
  | VTuple l =>
      P_VTuple ((fix elements (l : list value) : Forall P l :=
                   match l with
                   | [] => Forall_nil _
                   | x :: l' => Forall_cons x (value_tree_ind x) (elements l')
                   end) l)
  | VDict d =>
      P_VDict ((fix items (d : dict) : Forall (fun kv => P (snd kv)) d :=
                  match d with
                  | [] => Forall_nil _
                  | kv :: d' =>
                      Forall_cons kv (value_tree_ind (snd kv)) (items d')
                  end) d)
  | VNone => P_leaf VNone I
  | VBool b => P_leaf (VBool b) I
  | VInt z => P_leaf (VInt z) I
  | VDtype d => P_leaf (VDtype d) I
  | VTensor t => P_leaf (VTensor t) I
  | VMX m => P_leaf (VMX m) I
  end.
End value_induction.

(** [decoded v v']: [v'] is [v] with every [MXTensor], at any depth,
    replaced by its decoding to its own [_orig_dtype], and everything else
    as it was. *)
Inductive decoded : value -> value -> Prop :=
| decoded_MX m hp :
    to_dtype m (MXTensor._orig_dtype m) = Ok hp ->
    decoded (VMX m) (VTensor hp)
| decoded_None : decoded VNone VNone
| decoded_Bool b : decoded (VBool b) (VBool b)
| decoded_Int z : decoded (VInt z) (VInt z)
| decoded_Dtype d : decoded (VDtype d) (VDtype d)
| decoded_Tensor t : decoded (VTensor t) (VTensor t)
| decoded_List l l' : Forall2 decoded l l' -> decoded (VList l) (VList l')
| decoded_Tuple l l' : Forall2 decoded l l' -> decoded (VTuple l) (VTuple l')
| decoded_Dict d d' :
    Forall2 (fun kv kv' => fst kv' = fst kv /\ decoded (snd kv) (snd kv'))
            d d' ->
    decoded (VDict d) (VDict d').

Definition decoded_item (kv kv' : string * value) : Prop :=
  fst kv' = fst kv /\ decoded (snd kv) (snd kv').

(** No [MXTensor] anywhere in the value. *)
Fixpoint plain (v : value) : bool :=
  match v with
  | VMX _ => false
  | VList l | VTuple l => forallb plain l
  | VDict d => forallb (fun kv => plain (snd kv)) d
  | _ => true
  end.

(** The targets [autocast_to_copy] accepts. *)
Definition autocast_dtype (d : dtype) : Prop := d = float16 \/ d = bfloat16.

End MXSpecifications.

(** ** Concrete inputs on the rational runtime *)

Section Inputs.
Import QTorch.
Local Open Scope Q_scope.

(** A layer with 4 inputs, 2 outputs and groups of 2, as constructed. *)
Definition layer0 : QAT.t :=
  {| QAT.in_features := 4;
     QAT.out_features := 2;
     QAT.weight := [[-3 # 4; 1 # 2; 0; -1 # 2]; [0; -1 # 2; 3 # 4; 1 # 4]];
     QAT.groupsize := 2;
     QAT.precision := float32;
     QAT.scales_precision := float32;
     QAT.zero_points_precision := int32;
     QAT._fake_quant_enabled := true |}.

Definition x0 : tensor := [[1 # 3; 1 # 2; -1; 2]].

(** A weight-only layer after some training steps. *)
Definition layer4w : W4.t :=
  {| W4.in_features := 4;
     W4.out_features := 2;
     W4.weight := [[-3 # 4; 1 # 2; 1 # 10; -1 # 2]; [0; -1 # 2; 3 # 4; 1 # 5]];
     W4.groupsize := 4;
     W4.inner_k_tiles := 8;
     W4.precision := bfloat16;
     W4.scales_precision := bfloat16;
     W4._fake_quant_enabled := true |}.

(** A model with a fake-quantized layer at depth 1 and another one at
    depth 2, next to a module of another class; no forward pass was
    run. *)
Definition model0 : nn_Module :=
  Other "Model"
    [("fc", QATLinear layer0);
     ("act", Other "ReLU" []);
     ("block", Other "Block" [("proj", QATLinear layer0)])].

Definition quantized0 : Q8.t :=
  {| Q8.in_features := 4;
     Q8.out_features := 2;
     Q8.groupsize := 2;
     Q8.precision := float32;
     Q8.weight := [[-7; 5; 0; -7]; [0; -7; 7; 2]];
     Q8.scales := [[3 # 28; 1 # 14]; [1 # 14; 3 # 28]];
     Q8.zeros := [[0; 0]; [0; 0]] |}.

Definition model0' : nn_Module :=
  Other "Model"
    [("fc", QuantizedLinear quantized0);
     ("act", Other "ReLU" []);
     ("block", Other "Block" [("proj", QuantizedLinear quantized0)])].

(** Two blocks of four fp8 elements, with exponents 0 and 1: a 2 x 4
    tensor, and a 4 x 2 tensor declared as bfloat16. *)
Definition mx0 : MXTensor.t :=
  {| MXTensor._scale_e8m0 := [[127; 128]];
     MXTensor._data := [[1; 2; 3; 4]; [1 # 2; 1; 3 # 2; 2]];
     MXTensor._elem_dtype := float8_e4m3fn;
     MXTensor._block_size := 4;
     MXTensor._orig_dtype := float32 |}.

Definition mx1 : MXTensor.t :=
  {| MXTensor._scale_e8m0 := [[127; 128]];
     MXTensor._data := [[1; 2]; [3; 4]; [1 # 2; 1]; [3 # 2; 2]];
     MXTensor._elem_dtype := float8_e4m3fn;
     MXTensor._block_size := 4;
     MXTensor._orig_dtype := bfloat16 |}.

(** The same storage read as fp4: 2 x 4 bytes hold 2 x 8 elements. *)
Definition mx_fp4 : MXTensor.t :=
  {| MXTensor._scale_e8m0 := [[127; 128]];
     MXTensor._data := [[1; 2; 3; 4]; [1 # 2; 1; 3 # 2; 2]];
     MXTensor._elem_dtype := DTYPE_FP4_E2M1;
     MXTensor._block_size := 8;
     MXTensor._orig_dtype := float32 |}.

(** A plain tensor as an argument. *)
Definition tensor_value (t : tensor) : value := VTensor (t : Tensor).

End Inputs.

Section MoreInputs.
Import QTorch.
Local Open Scope Q_scope.



(** The 4w layer with 4 inputs, 2 outputs and one group per row, as
    constructed. *)
Definition layer4w_fresh : W4.t :=
  {| W4.in_features := 4;
     W4.out_features := 2;
     W4.weight := [[-3 # 4; 1 # 2; 0; -1 # 2]; [0; -1 # 2; 3 # 4; 1 # 4]];
     W4.groupsize := 4;
     W4.inner_k_tiles := 8;
     W4.precision := bfloat16;
     W4.scales_precision := bfloat16;
     W4._fake_quant_enabled := true |}.

(** An 8da4w layer whose weight is on the 4-bit grid of its groups, and an
    input on the 8-bit grid of its token. *)
Definition layer_on_grid : QAT.t :=
  {| QAT.in_features := 4;
     QAT.out_features := 2;
     QAT.weight := [[7; -7; 0; 7]; [-14; 4; 21; 3]];
     QAT.groupsize := 2;
     QAT.precision := float32;
     QAT.scales_precision := float32;
     QAT.zero_points_precision := int32;
     QAT._fake_quant_enabled := true |}.

Definition x_on_grid : tensor := [[0; 255; 100; 3]].

(** A model that registers the one layer object [layer0] under two
    names: [model.a = layer; model.b = layer]. *)
Definition heap_shared : Heap.heap :=
  [Heap.OtherObj "Model" [("a", Some 1%nat); ("b", Some 1%nat)];
   Heap.QATLinearObj layer0].


(** A 2 x 2 block-scaled tensor with one block of four elements. *)
Definition mx_square : MXTensor.t :=
  {| MXTensor._scale_e8m0 := [[128]];
     MXTensor._data := [[1; 2]; [3; 4]];
     MXTensor._elem_dtype := float8_e4m3fn;
     MXTensor._block_size := 4;
     MXTensor._orig_dtype := float32 |}.

End MoreInputs.

(** ** The rest of [qat/api.py]: the module visitors *)

Section Visitors.
Context {T : Torch}.

(** A module as the four visitor functions see it (their parameter [mod]
    is [module] here): they test for the two fake-quantized linear classes
    and for nothing else. *)
Inductive module_obj : Type :=
| Linear8da4w (l : QAT.t)
| Linear4w (l : W4.t)
| OtherModule (cls : string).

Definition enable_8da4w_fake_quant (module : module_obj) : module_obj :=
  match module with
  | Linear8da4w l => Linear8da4w (QAT.enable_fake_quant l true)
  | _ => module
  end.

Definition disable_8da4w_fake_quant (module : module_obj) : module_obj :=
  match module with
  | Linear8da4w l => Linear8da4w (QAT.disable_fake_quant l)
  | _ => module
  end.

Definition enable_4w_fake_quant (module : module_obj) : module_obj :=
  match module with
  | Linear4w l => Linear4w (W4.enable_fake_quant l true)
  | _ => module
  end.

Definition disable_4w_fake_quant (module : module_obj) : module_obj :=
  match module with
  | Linear4w l => Linear4w (W4.disable_fake_quant l)
  | _ => module
  end.

(** The invariant that [Int8DynActInt4WeightQATLinear.__init__]
    asserts. *)
Definition groups_divide (l : QAT.t) : Prop :=
  QAT.groupsize l <> 0%Z /\
  (QAT.in_features l mod QAT.groupsize l = 0)%Z.

End Visitors.

Section VisitorsForward.
Context {T : Torch} {QP : QuantPrimitives}.

(** What calling a module on [x] returns, for the two classes of this
    file. *)
Definition module_forward (module : module_obj) (x : Tensor)
  : option (res Tensor) :=
  match module with
  | Linear8da4w l => Some (QAT.forward l x)
  | Linear4w l => Some (W4.forward l x)
  | OtherModule _ => None
  end.

End VisitorsForward.

(** ** The rest of [mx_ops.py]: [implements] and [MX_OPS_TABLE] *)

Section OpsTable.
Context {T : Torch} {MH : MXHelpers}.

(** A handler: [func(aten_op, args, kwargs)]. *)
Definition handler : Type :=
  aten_op_t -> list value -> option dict -> res value.

(** [MX_OPS_TABLE: Dict[Any, Any]], keyed by the operator overload, which
    is named by its qualified name ("aten.mm.default"); a dict keeps its
    keys in insertion order and each key once. *)
Definition ops_table : Type := list (string * handler).

Fixpoint table_get (table : ops_table) (op : string) : option handler :=
  match table with
  | [] => None
  | (k, func) :: table' =>
      if String.eqb k op then Some func else table_get table' op
  end.

(** [table[op] = func]. *)
Fixpoint table_set (table : ops_table) (op : string) (func : handler)
  : ops_table :=
  match table with
  | [] => [(op, func)]
  | (k, f) :: table' =>
      if String.eqb k op then (k, func) :: table'
      else (k, f) :: table_set table' op func
  end.

(** The decorator [implements(aten_ops)] applied to [func]: the table
    after the loop, and the function the decorated name is bound to. *)
Definition implements (aten_ops : list string) (func : handler)
    (table : ops_table) : ops_table * handler :=
  (fold_left (fun t op => table_set t op func) aten_ops table, func).

(** The table once the module is imported: the seven decorated definitions
    in the order of the file. *)
Definition MX_OPS_TABLE : ops_table :=
  let table := [] in
  let table := fst (implements ["aten.detach.default"] mx_desugar_op table) in
  let table := fst (implements ["aten.mm.default"; "aten.matmul.default"]
                               mx_mm table) in
  let table := fst (implements ["aten.addmm.default"] mx_addmm table) in
  let table := fst (implements ["aten.t.default"] mx_t table) in
  let table := fst (implements ["aten.sum.dim_IntList"] mx_cast_up_op table) in
  let table := fst (implements ["aten.view.default"] mx_view_op table) in
  let table := fst (implements ["aten._to_copy.default"] autocast_to_copy
                               table) in
  table.

Definition registered_overloads : list string :=
  ["aten.detach.default"; "aten.mm.default"; "aten.matmul.default";
   "aten.addmm.default"; "aten.t.default"; "aten.sum.dim_IntList";
   "aten.view.default"; "aten._to_copy.default"].

End OpsTable.

(** ** Facts about [res] *)

Lemma dtype_eqb_spec (a b : dtype) : reflect (a = b) (dtype_eqb a b).
Proof. destruct a, b; simpl; constructor; congruence. Qed.

Lemma bind_Ok {A B : Type} (c : res A) (k : A -> res B) (b : B) :
  bind c k = Ok b <-> exists a, c = Ok a /\ k a = Ok b.
Proof.
  destruct c as [a|e]; simpl; split.
  - intros Hk. now exists a.
  - intros (a' & Ha & Hk). now inversion Ha; subst.
  - discriminate.
  - intros (a' & Ha & _). discriminate.
Qed.

Lemma fails_not_Ok {A : Type} (c : res A) :
  fails c <-> forall a, c <> Ok a.
Proof.
  unfold fails. destruct c as [a|e]; simpl; split; try discriminate.
  - intros H. now contradiction (H a).
  - reflexivity.
Qed.

Lemma fails_assert_bind {B : Type} (cond : bool) (k : unit -> res B) :
  fails (bind (assert_ cond) k) <-> cond = false \/ fails (k tt).
Proof.
  unfold fails. destruct cond; simpl; split; auto.
  intros [H | H]; [discriminate | assumption].
Qed.

Lemma fails_Ok {A : Type} (a : A) : fails (Ok a) <-> False.
Proof. unfold fails; simpl. split; [discriminate | contradiction]. Qed.

Lemma py_mod_Ok_0 (a b : Z) :
  py_mod a b = Ok 0%Z <-> b <> 0%Z /\ (a mod b = 0)%Z.
Proof.
  unfold py_mod. destruct (Z.eqb_spec b 0); split.
  - discriminate.
  - intros [Hb _]. contradiction.
  - intros H. split; [assumption | congruence].
  - intros [_ ->]. reflexivity.
Qed.

(** ** The fake-quantized linear layers *)

Section QATLayers.
Context {T : Torch} {QP : QuantPrimitives}.

(** C1. [Int8DynActInt4WeightQATLinear.forward]: with the flag off the
    output is [F.linear] of the unmodified input and weight; with the flag
    on it is [F.linear] of the per-token 8-bit asymmetrically
    fake-quantized input and the per-group 4-bit symmetrically
    fake-quantized weight, the qparams being computed from the input and
    the weight the layer has at the time of the call (also right after the
    weight was replaced: nothing is cached); a freshly constructed layer
    has the flag on, and the two toggles set it. *)
Theorem C1_forward_8da4w :
  (forall (self : QAT.t) (x : Tensor),
      QAT._fake_quant_enabled self = false ->
      QAT.forward self x = F_linear x (QAT.weight self)) /\
  (forall (self : QAT.t) (x : Tensor),
      QAT._fake_quant_enabled self = true ->
      QAT.forward self x =
        (x_fq <- fake_quantize_activation
                   x (QAT.scales_precision self)
                   (QAT.zero_points_precision self) ;;
         w_fq <- fake_quantize_weight_symmetric
                   (QAT.weight self) (QAT.groupsize self)
                   (QAT.scales_precision self)
                   (QAT.zero_points_precision self) ;;
         F_linear x_fq w_fq)) /\
  (forall (self : QAT.t) (w' x : Tensor),
      QAT._fake_quant_enabled self = true ->
      QAT.forward (QAT.set_weight self w') x =
        (x_fq <- fake_quantize_activation
                   x (QAT.scales_precision self)
                   (QAT.zero_points_precision self) ;;
         w_fq <- fake_quantize_weight_symmetric
                   w' (QAT.groupsize self)
                   (QAT.scales_precision self)
                   (QAT.zero_points_precision self) ;;
         F_linear x_fq w_fq)) /\
  (forall in_features out_features bias device groupsize precision
          scales_precision (self : QAT.t),
      QAT.__init__ in_features out_features bias device groupsize precision
                   scales_precision = Ok self ->
      QAT._fake_quant_enabled self = true) /\
  (forall (self : QAT.t) (enabled : bool),
      QAT._fake_quant_enabled (QAT.enable_fake_quant self enabled) = enabled /\
      QAT._fake_quant_enabled (QAT.disable_fake_quant self) = false /\
      QAT.weight (QAT.enable_fake_quant self enabled) = QAT.weight self).
Proof.
  assert (Hon : forall (self : QAT.t) (x : Tensor),
             QAT._fake_quant_enabled self = true ->
             QAT.forward self x =
               (x_fq <- fake_quantize_activation
                          x (QAT.scales_precision self)
                          (QAT.zero_points_precision self) ;;
                w_fq <- fake_quantize_weight_symmetric
                          (QAT.weight self) (QAT.groupsize self)
                          (QAT.scales_precision self)
                          (QAT.zero_points_precision self) ;;
                F_linear x_fq w_fq)).
  { intros self x Hflag. unfold QAT.forward. rewrite Hflag.
    unfold fake_quantize_activation, fake_quantize_weight_symmetric.
    reflexivity. }
  repeat split.
  - intros self x Hflag. unfold QAT.forward. rewrite Hflag. reflexivity.
  - exact Hon.
  - intros self w' x Hflag.
    rewrite (Hon (QAT.set_weight self w') x Hflag). reflexivity.
  - intros i o b dev gs p sp self Hinit. unfold QAT.__init__ in Hinit.
    apply bind_Ok in Hinit as (w & _ & Hinit).
    apply bind_Ok in Hinit as (r & _ & Hinit).
    apply bind_Ok in Hinit as (? & _ & Hinit).
    apply bind_Ok in Hinit as (? & _ & Hinit).
    now inversion Hinit.
Qed.

(** C2. [Int4WeightOnlyQATLinear.forward] is [F.linear] of the input and
    the weight fake-quantized on 4 bits, asymmetrically per group, with a
    float-domain zero point and [qmin = 0], [qmax = 15], whatever the
    flag: two layers that differ in the flag only give the same output. *)
Theorem C2_forward_4w_ignores_flag :
  forall (self : W4.t) (x : Tensor) (enabled : bool),
    W4.forward self x =
      (w_fq <- fake_quantize_weight_affine
                 (W4.weight self) (W4.groupsize self)
                 (W4.scales_precision self) ;;
       F_linear x w_fq) /\
    W4.forward (W4.enable_fake_quant self enabled) x = W4.forward self x /\
    W4.forward (W4.disable_fake_quant self) x
      = W4.forward (W4.enable_fake_quant self true) x.
Proof.
  intros self x enabled.
  assert (Hfwd : W4.forward self x =
                   (w_fq <- fake_quantize_weight_affine
                              (W4.weight self) (W4.groupsize self)
                              (W4.scales_precision self) ;;
                    F_linear x w_fq)).
  { unfold W4.forward, fake_quantize_weight_affine.
    destruct (get_groupwise_affine_qparams _ _ _ _) as [[scales zps]|e];
      reflexivity. }
  split; [exact Hfwd | split; reflexivity].
Qed.

Lemma in_list_In (x : Z) (l : list Z) : W4Q.in_list x l = true <-> In x l.
Proof.
  unfold W4Q.in_list. rewrite existsb_exists. split.
  - intros (y & Hy & Heq). apply Z.eqb_eq in Heq. now subst.
  - intros Hx. exists x. split; [assumption | apply Z.eqb_refl].
Qed.

(** C3, as the code has it.  Construction raises, before any layer
    exists that could run a forward pass, exactly in these cases:
    - [Int8DynActInt4WeightQATLinear]: the constructor of [torch.nn.Linear]
      raises, or [bias=True], or [in_features % groupsize == 0] does not
      hold (a zero [groupsize] included);
    - [Int4WeightOnlyQATLinear]: the constructor of [torch.nn.Linear]
      raises, or [bias=True], or [scales_precision] is not bfloat16, or
      [_check_linear_int4_k(in_features, groupsize, inner_k_tiles)] does
      not return [True];
    - [Int4WeightOnlyQATQuantizer]: [inner_k_tiles] is not one of 2, 4, 8
      or [groupsize] is not one of 32, 64, 128, 256.
    In particular [groupsize=100] with [in_features=256] is rejected by
    the 8da4w layer and by the quantizer. *)
Theorem C3_construction_fails_exactly :
  (forall in_features out_features bias device groupsize precision
          scales_precision,
      fails (QAT.__init__ in_features out_features bias device groupsize
                          precision scales_precision) <->
      fails (Linear_init in_features out_features bias device precision) \/
      bias = true \/
      py_mod in_features groupsize <> Ok 0%Z) /\
  (forall in_features out_features bias device groupsize inner_k_tiles
          precision scales_precision,
      fails (W4.__init__ in_features out_features bias device groupsize
                         inner_k_tiles precision scales_precision) <->
      fails (Linear_init in_features out_features bias device precision) \/
      bias = true \/
      scales_precision <> bfloat16 \/
      _check_linear_int4_k in_features groupsize inner_k_tiles <> Ok true) /\
  (forall groupsize inner_k_tiles precision scales_precision,
      fails (W4Q.__init__ groupsize inner_k_tiles precision
                          scales_precision) <->
      ~ (exists k, inner_k_tiles = Some k /\ In k [2; 4; 8]%Z) \/
      ~ In groupsize [32; 64; 128; 256]%Z) /\
  (forall out_features bias device precision scales_precision,
      fails (QAT.__init__ 256 out_features bias device 100 precision
                          scales_precision)) /\
  (forall inner_k_tiles precision scales_precision,
      fails (W4Q.__init__ 100 inner_k_tiles precision scales_precision)).
Proof.
  assert (H8 : forall in_features out_features bias device groupsize
                      precision scales_precision,
             fails (QAT.__init__ in_features out_features bias device
                                 groupsize precision scales_precision) <->
             fails (Linear_init in_features out_features bias device
                                precision) \/
             bias = true \/
             py_mod in_features groupsize <> Ok 0%Z).
  { intros i o b dev gs p sp. unfold QAT.__init__.
    destruct (Linear_init i o b dev p) as [w|e]; simpl.
    2:{ split; [now left | reflexivity]. }
    unfold py_mod. destruct (Z.eqb_spec gs 0) as [Hgs|Hgs]; simpl.
    { split; [intros _; right; right; discriminate | reflexivity]. }
    destruct (Z.eqb_spec (i mod gs) 0) as [Hr|Hr]; simpl.
    - destruct b; simpl; unfold fails; simpl; split.
      + intros _. right. now left.
      + reflexivity.
      + discriminate.
      + intros [H0 | [H0 | H0]]; try discriminate.
        contradiction H0. now rewrite Hr.
    - unfold fails; simpl. split; [intros _ | reflexivity].
      right. right. intros Heq. inversion Heq. contradiction. }
  assert (HQ : forall groupsize inner_k_tiles precision scales_precision,
             fails (W4Q.__init__ groupsize inner_k_tiles precision
                                 scales_precision) <->
             ~ (exists k, inner_k_tiles = Some k /\ In k [2; 4; 8]%Z) \/
             ~ In groupsize [32; 64; 128; 256]%Z).
  { intros gs ikt p sp. unfold W4Q.__init__.
    assert (Hk : match ikt with
                 | Some k => W4Q.in_list k [2; 4; 8]%Z
                 | None => false
                 end = true <->
                 exists k, ikt = Some k /\ In k [2; 4; 8]%Z).
    { destruct ikt as [k|].
      - rewrite in_list_In. split.
        + intros Hin. now exists k.
        + intros (k' & Heq & Hin). now inversion Heq; subst.
      - split; [discriminate | intros (k & Heq & _); discriminate]. }
    rewrite !fails_assert_bind, fails_Ok, <- Hk, <- in_list_In.
    destruct (match ikt with
              | Some k => W4Q.in_list k [2; 4; 8]%Z
              | None => false
              end);
      destruct (W4Q.in_list gs [32; 64; 128; 256]%Z);
      intuition congruence. }
  split; [exact H8 | split; [ | split; [exact HQ | split]]].
  - intros i o b dev gs ikt p sp. unfold W4.__init__.
    destruct (Linear_init i o b dev p) as [w|e]; simpl.
    2:{ split; [now left | reflexivity]. }
    destruct b; simpl.
    { unfold fails; simpl. split; [intros _ | reflexivity].
      right. now left. }
    destruct (dtype_eqb_spec sp bfloat16) as [Hsp|Hsp]; simpl.
    2:{ unfold fails; simpl. split; [intros _ | reflexivity].
        right. right. now left. }
    destruct (_check_linear_int4_k i gs ikt) as [[|]|e]; simpl;
      unfold fails; simpl; split; try reflexivity; try discriminate.
    + intros [H0 | [H0 | [H0 | H0]]]; try discriminate; contradiction.
    + intros _. right. right. right. discriminate.
    + intros _. right. right. right. discriminate.
  - intros o b dev p sp. apply H8. right. right. discriminate.
  - intros ikt p sp. apply HQ. right. simpl. lia.
Qed.

End QATLayers.

(** ** The 8da4w quantizer *)

Section ConvertFacts.
Context {T : Torch} {QP : QuantPrimitives}.

Lemma convert_child_quantized_from (l : QAT.t) (q : Q8.t) :
  convert_child l = Ok q -> quantized_from l q.
Proof.
  unfold convert_child, Q8.__init__. intros H.
  apply bind_Ok in H as (q0 & Hq0 & H).
  apply bind_Ok in Hq0 as ([[w0 s0] z0] & _ & Hq0).
  inversion Hq0; subst q0; clear Hq0. simpl in H.
  apply bind_Ok in H as ([s zp] & Hqp & H).
  apply bind_Ok in H as (q_weight & Hq & H).
  inversion H; subst; clear H. unfold quantized_from; simpl.
  repeat split; assumption.
Qed.






End ConvertFacts.

(** ** The handlers of [MX_OPS_TABLE] *)

Section MXFacts.
Context {T : Torch} {MH : MXHelpers}.

Lemma getitem_Ok (args : list value) (i : nat) (v : value) :
  getitem args i = Ok v <-> nth_error args i = Some v.
Proof.
  unfold getitem. destruct (nth_error args i); split; congruence.
Qed.

Lemma getitem_0_Ok (args : list value) (v : value) :
  getitem args 0 = Ok v <-> exists rest, args = v :: rest.
Proof.
  rewrite getitem_Ok. destruct args as [|a rest]; simpl; split.
  - discriminate.
  - intros (r & Hr). discriminate.
  - intros Ha. inversion Ha. now exists rest.
  - intros (r & Hr). now inversion Hr.
Qed.

Lemma mx_attrs_Ok (v : value) (m : MXTensor.t) :
  mx_attrs v = Ok m <-> v = VMX m.
Proof. destruct v; simpl; split; congruence. Qed.

Lemma star_star_Ok (kwargs : option dict) (kw : dict) :
  star_star kwargs = Ok kw <-> kwargs = Some kw.
Proof. destruct kwargs; simpl; split; congruence. Qed.

(** C5. [mx_mm] (registered for [aten.mm] and [aten.matmul]) raises
    unless the first two operands are both [MXTensor]s; when they are, each
    is decoded to its own [_orig_dtype], the operator is called on the two
    decoded tensors, and what it returns is returned as it is, a plain
    tensor and not an [MXTensor]. *)
Theorem C5_mx_mm :
  forall (aten_op : aten_op_t) (args : list value) (kwargs : option dict),
    (forall a b rest,
        args = VMX a :: VMX b :: rest ->
        mx_mm aten_op args kwargs =
          (a_hp <- to_dtype a (MXTensor._orig_dtype a) ;;
           b_hp <- to_dtype b (MXTensor._orig_dtype b) ;;
           res <- aten_op [VTensor a_hp; VTensor b_hp] [] ;;
           Ok (VTensor res))) /\
    ((forall a b rest, args <> VMX a :: VMX b :: rest) ->
     fails (mx_mm aten_op args kwargs)) /\
    (forall v,
        mx_mm aten_op args kwargs = Ok v ->
        exists a b rest a_hp b_hp res,
          args = VMX a :: VMX b :: rest /\
          to_dtype a (MXTensor._orig_dtype a) = Ok a_hp /\
          to_dtype b (MXTensor._orig_dtype b) = Ok b_hp /\
          aten_op [VTensor a_hp; VTensor b_hp] [] = Ok res /\
          v = VTensor res).
Proof.
  intros aten_op args kwargs.
  assert (Hshape : forall v,
             mx_mm aten_op args kwargs = Ok v ->
             exists a b rest a_hp b_hp res,
               args = VMX a :: VMX b :: rest /\
               to_dtype a (MXTensor._orig_dtype a) = Ok a_hp /\
               to_dtype b (MXTensor._orig_dtype b) = Ok b_hp /\
               aten_op [VTensor a_hp; VTensor b_hp] [] = Ok res /\
               v = VTensor res).
  { intros v Hv. unfold mx_mm in Hv.
    destruct args as [|a [|b rest]]; try discriminate.
    simpl in Hv. destruct a; try discriminate. destruct b; try discriminate.
    apply bind_Ok in Hv as (a_hp & Ha & Hv).
    apply bind_Ok in Hv as (b_hp & Hb & Hv).
    apply bind_Ok in Hv as (res & Hres & Hv). inversion Hv; subst.
    now exists m, m0, rest, a_hp, b_hp, res. }
  split; [ | split; [ | exact Hshape]].
  - intros a b rest ->. reflexivity.
  - intros Hnot. apply fails_not_Ok. intros v Hv.
    destruct (Hshape v Hv) as (a & b & rest & _ & _ & _ & Hargs & _).
    now apply (Hnot a b rest).
Qed.

(** C6. [autocast_to_copy] returns exactly when the first operand is an
    [MXTensor] and [kwargs] is the single keyword ["dtype"] with float16
    or bfloat16 as its value: every other target raises.  The result is
    the input with the requested target as its [_orig_dtype]; scale,
    packed data, element format and block size are those of the input. *)
Theorem C6_autocast_to_copy :
  forall (aten_op : aten_op_t) (args : list value) (kwargs : option dict),
    (forall v,
        autocast_to_copy aten_op args kwargs = Ok v <->
        exists m rest d,
          args = VMX m :: rest /\
          kwargs = Some [("dtype", VDtype d)] /\
          (d = float16 \/ d = bfloat16) /\
          v = VMX (with_orig_dtype m d)) /\
    (forall m d,
        MXTensor._scale_e8m0 (with_orig_dtype m d) = MXTensor._scale_e8m0 m /\
        MXTensor._data (with_orig_dtype m d) = MXTensor._data m /\
        MXTensor._elem_dtype (with_orig_dtype m d) = MXTensor._elem_dtype m /\
        MXTensor._block_size (with_orig_dtype m d) = MXTensor._block_size m /\
        MXTensor._orig_dtype (with_orig_dtype m d) = d) /\
    (forall target,
        kwargs = Some [("dtype", target)] ->
        target <> VDtype float16 -> target <> VDtype bfloat16 ->
        fails (autocast_to_copy aten_op args kwargs)).
Proof.
  intros aten_op args kwargs.
  assert (Hiff : forall v,
             autocast_to_copy aten_op args kwargs = Ok v <->
             exists m rest d,
               args = VMX m :: rest /\
               kwargs = Some [("dtype", VDtype d)] /\
               (d = float16 \/ d = bfloat16) /\
               v = VMX (with_orig_dtype m d)).
  { intros v. split.
    - unfold autocast_to_copy. intros Hv.
      apply bind_Ok in Hv as (a0 & Ha0 & Hv).
      apply getitem_0_Ok in Ha0 as (rest & ->).
      apply bind_Ok in Hv as ([] & Hmx & Hv).
      destruct a0; try discriminate. clear Hmx.
      destruct kwargs as [kw|]; [ | discriminate].
      apply bind_Ok in Hv as ([] & Hkw & Hv).
      destruct kw as [|[k target] [|? ?]]; try discriminate.
      unfold dict_contains in Hkw. simpl in Hkw, Hv.
      destruct (String.eqb_spec k "dtype") as [->|]; [ | discriminate].
      apply bind_Ok in Hv as (ok & Hok & Hv).
      apply bind_Ok in Hv as ([] & Hassert & Hv).
      destruct ok; [ | discriminate].
      destruct target as [| | |d| | | | |]; try discriminate.
      inversion Hv; subst.
      exists m, rest, d. repeat split.
      destruct d; try discriminate; auto.
    - intros (m & rest & d & -> & -> & Hd & ->).
      destruct Hd as [-> | ->]; reflexivity. }
  split; [exact Hiff | split].
  - intros m d. repeat split.
  - intros target -> Hf16 Hbf16. apply fails_not_Ok. intros v Hv.
    apply Hiff in Hv as (m & rest & d & _ & Hkw & Hd & _).
    inversion Hkw; subst. destruct Hd; subst; contradiction.
Qed.

(** C7. [mx_desugar_op] (registered for [aten.detach]) calls the
    operator on the packed data (and the remaining arguments), never on the
    scale, and returns an [MXTensor] with the new data whose scale, element
    format, block size and original dtype are those of the input. *)
Theorem C7_mx_desugar_op :
  forall (aten_op : aten_op_t) (args : list value) (kwargs : option dict),
    (forall old rest kw,
        args = VMX old :: rest -> kwargs = Some kw ->
        mx_desugar_op aten_op args kwargs =
          (new_data <- aten_op (VTensor (MXTensor._data old) :: rest) kw ;;
           Ok (VMX (with_data old new_data)))) /\
    (forall v,
        mx_desugar_op aten_op args kwargs = Ok v ->
        exists old rest kw new,
          args = VMX old :: rest /\ kwargs = Some kw /\ v = VMX new /\
          aten_op (VTensor (MXTensor._data old) :: rest) kw
            = Ok (MXTensor._data new) /\
          same_metadata old new).
Proof.
  intros aten_op args kwargs. split.
  - intros old rest kw -> ->. reflexivity.
  - intros v Hv. unfold mx_desugar_op in Hv.
    apply bind_Ok in Hv as (a0 & Ha0 & Hv).
    apply getitem_0_Ok in Ha0 as (rest & ->).
    apply bind_Ok in Hv as (old & Hold & Hv). apply mx_attrs_Ok in Hold.
    apply bind_Ok in Hv as (kw & Hkw & Hv). apply star_star_Ok in Hkw.
    apply bind_Ok in Hv as (new_data & Hop & Hv). subst.
    inversion Hv; subst.
    exists old, rest, kw, (with_data old new_data).
    repeat split. exact Hop.
Qed.

(** C10. [mx_t] (registered for [aten.t]) returns an [MXTensor] whose
    packed data is [_data.t()] of the input; the scale is the scale of the
    input, handed on as it is, and element format, block size and original
    dtype are kept. *)
Theorem C10_mx_t :
  forall (aten_op : aten_op_t) (args : list value) (kwargs : option dict),
    (forall old rest,
        args = VMX old :: rest ->
        mx_t aten_op args kwargs =
          (data_t <- Tensor_t (MXTensor._data old) ;;
           Ok (VMX (with_data old data_t)))) /\
    (forall v,
        mx_t aten_op args kwargs = Ok v ->
        exists old rest new,
          args = VMX old :: rest /\ v = VMX new /\
          Tensor_t (MXTensor._data old) = Ok (MXTensor._data new) /\
          MXTensor._scale_e8m0 new = MXTensor._scale_e8m0 old /\
          same_metadata old new).
Proof.
  intros aten_op args kwargs. split.
  - intros old rest ->. reflexivity.
  - intros v Hv. unfold mx_t in Hv.
    apply bind_Ok in Hv as (a0 & Ha0 & Hv).
    apply getitem_0_Ok in Ha0 as (rest & ->).
    apply bind_Ok in Hv as (old & Hold & Hv). apply mx_attrs_Ok in Hold.
    apply bind_Ok in Hv as (data_t & Ht & Hv). subst.
    inversion Hv; subst.
    exists old, rest, (with_data old data_t).
    repeat split. exact Ht.
Qed.

Lemma is_fp4_true (d : dtype) :
  is_fp4 d = true <-> d = DTYPE_FP4_E2M1 \/ d = DTYPE_FP4_E3M0.
Proof. unfold is_fp4. destruct d; simpl; intuition congruence. Qed.

Lemma is_fp4_false (d : dtype) :
  is_fp4 d = false <-> d <> DTYPE_FP4_E2M1 /\ d <> DTYPE_FP4_E3M0.
Proof. unfold is_fp4. destruct d; simpl; intuition congruence. Qed.

(** C8. [mx_view_op] (registered for [aten.view]): when the element
    format is one of the two fp4 formats the requested size goes through
    [tensor_size_hp_to_fp4x2], with the contiguity of the packed data, and
    the operator is called with the translated size; for every other
    element format it is called with the requested size as it is.  Either
    way the operator is applied to the packed data and the result is an
    [MXTensor] with the scale, element format, block size and original
    dtype of the input. *)
Theorem C8_mx_view_op :
  forall (aten_op : aten_op_t) (args : list value) (kwargs : option dict),
    (forall old new_size rest kw,
        args = VMX old :: new_size :: rest -> kwargs = Some kw ->
        MXTensor._elem_dtype old = DTYPE_FP4_E2M1 \/
        MXTensor._elem_dtype old = DTYPE_FP4_E3M0 ->
        mx_view_op aten_op args kwargs =
          (packed_size <- tensor_size_hp_to_fp4x2
                            new_size (is_contiguous (MXTensor._data old)) ;;
           new_data <- aten_op (VTensor (MXTensor._data old)
                                  :: packed_size :: rest) kw ;;
           Ok (VMX (with_data old new_data)))) /\
    (forall old new_size rest kw,
        args = VMX old :: new_size :: rest -> kwargs = Some kw ->
        MXTensor._elem_dtype old <> DTYPE_FP4_E2M1 ->
        MXTensor._elem_dtype old <> DTYPE_FP4_E3M0 ->
        mx_view_op aten_op args kwargs =
          (new_data <- aten_op (VTensor (MXTensor._data old)
                                  :: new_size :: rest) kw ;;
           Ok (VMX (with_data old new_data)))) /\
    (forall v,
        mx_view_op aten_op args kwargs = Ok v ->
        exists old new_size rest kw size new,
          args = VMX old :: new_size :: rest /\ kwargs = Some kw /\
          (if is_fp4 (MXTensor._elem_dtype old)
           then tensor_size_hp_to_fp4x2
                  new_size (is_contiguous (MXTensor._data old)) = Ok size
           else size = new_size) /\
          aten_op (VTensor (MXTensor._data old) :: size :: rest) kw
            = Ok (MXTensor._data new) /\
          v = VMX new /\ same_metadata old new).
Proof.
  intros aten_op args kwargs. split; [ | split].
  - intros old new_size rest kw -> -> Hfp4. apply is_fp4_true in Hfp4.
    unfold mx_view_op. simpl. rewrite Hfp4.
    destruct (tensor_size_hp_to_fp4x2 _ _); reflexivity.
  - intros old new_size rest kw -> -> H1 H2.
    assert (Hfp4 : is_fp4 (MXTensor._elem_dtype old) = false)
      by (now apply is_fp4_false).
    unfold mx_view_op. simpl. rewrite Hfp4. reflexivity.
  - intros v Hv. unfold mx_view_op in Hv.
    apply bind_Ok in Hv as (a0 & Ha0 & Hv).
    apply getitem_0_Ok in Ha0 as (rest0 & ->).
    apply bind_Ok in Hv as (old & Hold & Hv). apply mx_attrs_Ok in Hold.
    apply bind_Ok in Hv as (new_size & Hsize & Hv).
    destruct rest0 as [|s1 rest]; [discriminate | ].
    simpl in Hsize. inversion Hsize; subst s1; clear Hsize.
    apply bind_Ok in Hv as (size & Htr & Hv).
    apply bind_Ok in Hv as (kw & Hkw & Hv). apply star_star_Ok in Hkw.
    apply bind_Ok in Hv as (new_data & Hop & Hv). subst.
    inversion Hv; subst.
    exists old, new_size, rest, kw, size, (with_data old new_data).
    repeat split; try assumption.
    destruct (is_fp4 (MXTensor._elem_dtype old)); congruence.
Qed.

(** *** [tree_map] and [unwrap] *)

Lemma map_res_Ok {A B : Type} (f : A -> res B) (l : list A) (l' : list B) :
  map_res f l = Ok l' <-> Forall2 (fun x y => f x = Ok y) l l'.
Proof.
  revert l'. induction l as [|x l IH]; intros l'; simpl; split.
  - intros H. inversion H. constructor.
  - intros H. inversion H. reflexivity.
  - intros H. apply bind_Ok in H as (y & Hy & H).
    apply bind_Ok in H as (l'' & Hl & H). inversion H; subst.
    constructor; [assumption | now apply IH].
  - intros H. inversion H as [|x0 y l0 l'' Hy Hl]; subst.
    apply IH in Hl. now rewrite Hy, Hl.
Qed.

Lemma Forall2_impl_Forall {A B : Type} (P : A -> Prop) (R R' : A -> B -> Prop)
    (l : list A) (l' : list B) :
  Forall P l -> (forall x y, P x -> R x y -> R' x y) ->
  Forall2 R l l' -> Forall2 R' l l'.
Proof.
  intros HP Himp H. induction H as [|x y l l' Hxy _ IH]; constructor.
  - inversion HP; subst. now apply Himp.
  - inversion HP; subst. now apply IH.
Qed.

Lemma tree_map_unwrap_decoded (v v' : value) :
  tree_map unwrap v = Ok v' <-> decoded v v'.
Proof.
  revert v'. induction v as [v Hleaf|l IH|l IH|d IH] using value_tree_ind;
    intros v'.
  - destruct v; try contradiction; simpl; split; intros H;
      try (inversion H; subst; constructor);
      try (inversion H; subst; reflexivity).
    + apply bind_Ok in H as (hp & Hhp & H). inversion H; subst.
      now constructor.
    + inversion H; subst. now rewrite H1.
  - simpl. split; intros H.
    + apply bind_Ok in H as (l' & Hl & H). inversion H; subst.
      constructor. apply map_res_Ok in Hl.
      eapply Forall2_impl_Forall; [exact IH | | exact Hl].
      intros x y Hx Hxy. now apply Hx.
    + inversion H as [| | | | | |l0 l' Hl| |]; subst.
      assert (Hmap : map_res (tree_map unwrap) l = Ok l').
      { apply map_res_Ok.
        eapply Forall2_impl_Forall; [exact IH | | exact Hl].
        intros x y Hx Hxy. now apply Hx. }
      now rewrite Hmap.
  - simpl. split; intros H.
    + apply bind_Ok in H as (l' & Hl & H). inversion H; subst.
      constructor. apply map_res_Ok in Hl.
      eapply Forall2_impl_Forall; [exact IH | | exact Hl].
      intros x y Hx Hxy. now apply Hx.
    + inversion H as [| | | | | | |l0 l' Hl|]; subst.
      assert (Hmap : map_res (tree_map unwrap) l = Ok l').
      { apply map_res_Ok.
        eapply Forall2_impl_Forall; [exact IH | | exact Hl].
        intros x y Hx Hxy. now apply Hx. }
      now rewrite Hmap.
  - simpl. split; intros H.
    + apply bind_Ok in H as (d' & Hd & H). inversion H; subst.
      constructor. apply map_res_Ok in Hd.
      eapply Forall2_impl_Forall; [exact IH | | exact Hd].
      intros [k x] [k' y] Hx Hxy. simpl in *.
      apply bind_Ok in Hxy as (y' & Hy & Hxy). inversion Hxy; subst.
      split; [reflexivity | now apply Hx].
    + inversion H as [| | | | | | | |d0 d' Hd]; subst.
      assert (Hmap : map_res (fun kv => v' <- tree_map unwrap (snd kv) ;;
                                        Ok (fst kv, v')) d = Ok d').
      { apply map_res_Ok.
        eapply Forall2_impl_Forall; [exact IH | | exact Hd].
        intros [k x] [k' y] Hx [Hk Hxy]. simpl in *. subst k'.
        apply Hx in Hxy. now rewrite Hxy. }
      now rewrite Hmap.
Qed.

Lemma Forall2_forallb_r {A B : Type} (P : A -> Prop) (R : A -> B -> Prop)
    (f : B -> bool) (l : list A) (l' : list B) :
  Forall P l -> (forall x y, P x -> R x y -> f y = true) ->
  Forall2 R l l' -> forallb f l' = true.
Proof.
  intros HP Himp H. induction H as [|x y l l' Hxy _ IH]; simpl.
  - reflexivity.
  - inversion HP; subst. rewrite (Himp x y); auto.
Qed.

Lemma decoded_plain (v v' : value) : decoded v v' -> plain v' = true.
Proof.
  revert v'. induction v as [v Hleaf|l IH|l IH|d IH] using value_tree_ind;
    intros v' H.
  - destruct v; try contradiction; inversion H; subst; reflexivity.
  - inversion H as [| | | | | |l0 l' Hl| |]; subst. simpl.
    eapply Forall2_forallb_r; [exact IH | | exact Hl]. auto.
  - inversion H as [| | | | | | |l0 l' Hl|]; subst. simpl.
    eapply Forall2_forallb_r; [exact IH | | exact Hl]. auto.
  - inversion H as [| | | | | | | |d0 d' Hd]; subst. simpl.
    eapply Forall2_forallb_r; [exact IH | | exact Hd].
    intros x y Hx [_ Hxy]. now apply Hx.
Qed.

(** A value without [MXTensor] is its own decoding. *)
Lemma plain_decoded (v : value) : plain v = true -> decoded v v.
Proof.
  induction v as [v Hleaf|l IH|l IH|d IH] using value_tree_ind; intros Hp.
  - destruct v; try contradiction; try constructor. discriminate.
  - constructor. simpl in Hp. induction IH as [|x l Hx _ IHl]; simpl in Hp.
    + constructor.
    + apply andb_true_iff in Hp as [Hpx Hpl]. constructor; auto.
  - constructor. simpl in Hp. induction IH as [|x l Hx _ IHl]; simpl in Hp.
    + constructor.
    + apply andb_true_iff in Hp as [Hpx Hpl]. constructor; auto.
  - constructor. simpl in Hp. induction IH as [|x l Hx _ IHl]; simpl in Hp.
    + constructor.
    + apply andb_true_iff in Hp as [Hpx Hpl]. constructor; auto.
Qed.

Lemma forallb_plain_decoded (l : list value) :
  forallb plain l = true -> Forall2 decoded l l.
Proof.
  induction l as [|x l IH]; simpl; intros Hp; constructor.
  - apply andb_true_iff in Hp as [Hx _]. now apply plain_decoded.
  - apply andb_true_iff in Hp as [_ Hl]. now apply IH.
Qed.

Lemma map_res_unwrap_args (args new_args : list value) :
  map_res (tree_map unwrap) args = Ok new_args <->
  Forall2 decoded args new_args.
Proof.
  rewrite map_res_Ok. split; intros H;
    (induction H as [|x y l l' Hxy _ IH]; constructor;
     [now apply tree_map_unwrap_decoded | exact IH]).
Qed.

Lemma map_res_unwrap_kwargs (kw new_kw : dict) :
  map_res (fun kv => v' <- tree_map unwrap (snd kv) ;; Ok (fst kv, v')) kw
    = Ok new_kw <->
  Forall2 decoded_item kw new_kw.
Proof.
  rewrite map_res_Ok. split; intros H;
    induction H as [|[k x] [k' y] l l' Hxy _ IH]; constructor;
    try exact IH; simpl in *.
  - apply bind_Ok in Hxy as (y' & Hy & Hxy). inversion Hxy; subst.
    split; [reflexivity | now apply tree_map_unwrap_decoded].
  - destruct Hxy as [Hk Hxy]. simpl in *. subst k'.
    apply tree_map_unwrap_decoded in Hxy. now rewrite Hxy.
Qed.

(** C9. [mx_cast_up_op] (registered for [aten.sum.dim_IntList]) returns
    exactly when [kwargs] is a dict, every [MXTensor] in the trees of
    [args] and [kwargs] decodes to its own [_orig_dtype], and the operator
    returns on the decoded arguments; the result is what the operator
    returned, a plain tensor.  The decoded trees contain no [MXTensor], keep
    the keys, and keep every value that is not an [MXTensor]: arguments
    without any [MXTensor] reach the operator as they are. *)
Theorem C9_mx_cast_up_op :
  forall (aten_op : aten_op_t) (args : list value) (kwargs : option dict),
    (forall v,
        mx_cast_up_op aten_op args kwargs = Ok v <->
        exists new_args kw new_kw res,
          kwargs = Some kw /\
          Forall2 decoded args new_args /\
          Forall2 decoded_item kw new_kw /\
          aten_op new_args new_kw = Ok res /\
          v = VTensor res) /\
    (forall new_args,
        Forall2 decoded args new_args -> forallb plain new_args = true) /\
    (forall kw new_kw,
        kwargs = Some kw -> Forall2 decoded_item kw new_kw ->
        forallb (fun kv => plain (snd kv)) new_kw = true /\
        map fst new_kw = map fst kw) /\
    (forall kw,
        kwargs = Some kw ->
        forallb plain args = true ->
        forallb (fun kv => plain (snd kv)) kw = true ->
        mx_cast_up_op aten_op args kwargs =
          (res <- aten_op args kw ;; Ok (VTensor res))).
Proof.
  intros aten_op args kwargs. split; [ | split; [ | split]].
  - intros v. unfold mx_cast_up_op. split.
    + intros Hv. apply bind_Ok in Hv as (new_args & Hargs & Hv).
      apply bind_Ok in Hv as (new_kwargs & Hkw & Hv).
      apply bind_Ok in Hv as (new_kw & Hss & Hv).
      apply star_star_Ok in Hss. subst new_kwargs.
      apply bind_Ok in Hv as (res & Hop & Hv). inversion Hv; subst.
      destruct kwargs as [kw|]; [ | discriminate].
      apply bind_Ok in Hkw as (d' & Hd & Hkw). inversion Hkw; subst.
      exists new_args, kw, new_kw, res. repeat split; try assumption.
      * now apply map_res_unwrap_args.
      * now apply map_res_unwrap_kwargs.
    + intros (new_args & kw & new_kw & res & -> & Hargs & Hkw & Hop & ->).
      apply map_res_unwrap_args in Hargs. apply map_res_unwrap_kwargs in Hkw.
      rewrite Hargs. simpl. rewrite Hkw. simpl. now rewrite Hop.
  - intros new_args H.
    eapply Forall2_forallb_r with (P := fun _ => True); [ | | exact H].
    + now apply Forall_forall.
    + intros x y _ Hxy. now apply decoded_plain in Hxy.
  - intros kw new_kw _ H. split.
    + eapply Forall2_forallb_r with (P := fun _ => True); [ | | exact H].
      * now apply Forall_forall.
      * intros x y _ [_ Hxy]. now apply decoded_plain in Hxy.
    + induction H as [|x y l l' [Hk _] _ IH]; simpl; [reflexivity | ].
      now rewrite Hk, IH.
  - intros kw -> Hargs Hkw. unfold mx_cast_up_op.
    assert (Ha : map_res (tree_map unwrap) args = Ok args).
    { apply map_res_unwrap_args. now apply forallb_plain_decoded. }
    assert (Hk : map_res (fun kv => v' <- tree_map unwrap (snd kv) ;;
                                    Ok (fst kv, v')) kw = Ok kw).
    { apply map_res_unwrap_kwargs. clear Ha.
      induction kw as [|[k x] kw IH]; simpl in Hkw; constructor.
      - apply andb_true_iff in Hkw as [Hx _].
        split; [reflexivity | now apply plain_decoded].
      - apply andb_true_iff in Hkw as [_ Hl]. now apply IH. }
    rewrite Ha. simpl. rewrite Hk. reflexivity.
Qed.

End MXFacts.

(** ** Concrete runs on the rational runtime *)

Section Runs.
Import QTorch.
Local Open Scope Q_scope.

Example layer0_constructed :
  QAT.__init__ 4 2 false None 2 float32 float32 = Ok layer0.
Proof. reflexivity. Qed.

(** The flag off gives the full-precision product; the flag on gives
    another output, from qparams of the current weight. *)
Lemma C1_forward_8da4w_witness :
  QAT.forward (QAT.disable_fake_quant layer0) x0 = Ok [[-1; -1 # 2]] /\
  QAT.forward layer0 x0 = Ok [[-167 # 170; -1353 # 2380]] /\
  QAT.forward (QAT.set_weight layer0 [[1; 1; 1; 1]; [0; 0; 0; 0]]) x0
    = Ok [[31 # 17; 0]] /\
  QAT._fake_quant_enabled layer0 = true.
Proof.
  destruct (@C1_forward_8da4w torch quant) as (Hoff & Hon & Hset & Hinit & _).
  split; [ | split; [ | split]].
  - rewrite (Hoff (QAT.disable_fake_quant layer0) x0 eq_refl). reflexivity.
  - rewrite (Hon layer0 x0 eq_refl). reflexivity.
  - rewrite (Hset layer0 [[1; 1; 1; 1]; [0; 0; 0; 0]] x0 eq_refl).
    reflexivity.
  - exact (Hinit 4%Z 2%Z false None 2%Z float32 float32 layer0 eq_refl).
Defined.

(** The output is not the full-precision one, with the flag on and with
    the flag off. *)
Example forward_4w_run :
  F_linear x0 (W4.weight layer4w) = Ok [[-11 # 10; -3 # 5]] /\
  W4.forward layer4w x0 = Ok [[-13 # 12; -2 # 3]] /\
  W4.forward (W4.disable_fake_quant layer4w) x0 = Ok [[-13 # 12; -2 # 3]].
Proof. repeat split; reflexivity. Qed.

(** A weight-only layer without bias and with bfloat16 scales whose
    construction raises all the same: [in_features = 100] with
    [groupsize = 256]. *)
Lemma C3_counterexample :
  W4.__init__ 100 4 false None 256 8 bfloat16 bfloat16 = Raise ValueError /\
  ~ (fails (W4.__init__ 100 4 false None 256 8 bfloat16 bfloat16) <->
     false = true \/ bfloat16 <> bfloat16).
Proof.
  split; [reflexivity | ].
  intros [Hfails _]. destruct (Hfails eq_refl) as [H | H].
  - discriminate H.
  - now apply H.
Qed.

Lemma C3_construction_fails_exactly_witness :
  fails (QAT.__init__ 256 2 false None 100 float32 float32) /\
  fails (QAT.__init__ 4 2 true None 2 float32 float32) /\
  ~ fails (QAT.__init__ 4 2 false None 2 float32 float32) /\
  fails (W4.__init__ 100 4 false None 256 8 bfloat16 bfloat16) /\
  fails (W4.__init__ 4 2 false None 4 8 bfloat16 float32) /\
  ~ fails (W4.__init__ 4 2 false None 4 8 bfloat16 bfloat16) /\
  fails (W4Q.__init__ 100 (Some 8%Z) bfloat16 bfloat16) /\
  fails (W4Q.__init__ 256 (Some 3%Z) bfloat16 bfloat16) /\
  ~ fails (W4Q.__init__ 256 (Some 8%Z) bfloat16 bfloat16).
Proof.
  destruct (@C3_construction_fails_exactly torch quant)
    as (H8 & H4 & HQ & H100 & HQ100).
  split. { exact (H100 2%Z false None float32 float32). }
  split. { apply H8. right. left. reflexivity. }
  split.
  { intros Hf. apply H8 in Hf. destruct Hf as [Hf | [Hf | Hf]].
    - discriminate Hf.
    - discriminate Hf.
    - now apply Hf. }
  split. { apply H4. right. right. right. discriminate. }
  split. { apply H4. right. right. left. discriminate. }
  split.
  { intros Hf. apply H4 in Hf. destruct Hf as [Hf | [Hf | [Hf | Hf]]].
    - discriminate Hf.
    - discriminate Hf.
    - now apply Hf.
    - now apply Hf. }
  split. { exact (HQ100 (Some 8%Z) bfloat16 bfloat16). }
  split.
  { apply HQ. left. intros (k & Hk & Hin). inversion Hk; subst.
    simpl in Hin. lia. }
  intros Hf. apply HQ in Hf. destruct Hf as [Hf | Hf]; apply Hf.
  - exists 8%Z. split; [reflexivity | simpl; tauto].
  - simpl. tauto.
Defined.


Example decode_mx0 : to_dtype mx0 float32 = Ok [[1; 2; 3; 4]; [1; 2; 3; 4]].
Proof. reflexivity. Qed.

Lemma C5_mx_mm_witness :
  mx_mm aten_mm [VMX mx0; VMX mx1] (Some [])
    = Ok (tensor_value [[22; 32]; [22; 32]]) /\
  fails (mx_mm aten_mm [tensor_value [[1; 2; 3; 4]]; VMX mx1] (Some [])) /\
  fails (mx_mm aten_mm [VMX mx0] (Some [])).
Proof.
  split; [ | split].
  - destruct (@C5_mx_mm torch mx aten_mm [VMX mx0; VMX mx1] (Some []))
      as (Heq & _ & _).
    rewrite (Heq mx0 mx1 [] eq_refl). reflexivity.
  - destruct (@C5_mx_mm torch mx aten_mm
                [tensor_value [[1; 2; 3; 4]]; VMX mx1] (Some []))
      as (_ & Hfails & _).
    apply Hfails. intros a b rest Hargs. discriminate Hargs.
  - destruct (@C5_mx_mm torch mx aten_mm [VMX mx0] (Some []))
      as (_ & Hfails & _).
    apply Hfails. intros a b rest Hargs. discriminate Hargs.
Defined.

Lemma C6_autocast_to_copy_witness :
  autocast_to_copy aten_detach [VMX mx0] (Some [("dtype", VDtype bfloat16)])
    = Ok (VMX (with_orig_dtype mx0 bfloat16)) /\
  MXTensor._data (with_orig_dtype mx0 bfloat16) = MXTensor._data mx0 /\
  fails (autocast_to_copy aten_detach [VMX mx0]
           (Some [("dtype", VDtype float32)])) /\
  fails (autocast_to_copy aten_detach [VMX mx0]
           (Some [("dtype", VDtype bfloat16); ("copy", VBool true)])).
Proof.
  split; [ | split; [ | split]].
  - destruct (@C6_autocast_to_copy torch aten_detach [VMX mx0]
                (Some [("dtype", VDtype bfloat16)])) as (Hiff & _ & _).
    apply Hiff. exists mx0, [], bfloat16.
    split; [reflexivity | split; [reflexivity | split; [now right | ]]].
    reflexivity.
  - destruct (@C6_autocast_to_copy torch aten_detach [VMX mx0]
                (Some [("dtype", VDtype bfloat16)])) as (_ & Hsame & _).
    apply (Hsame mx0 bfloat16).
  - destruct (@C6_autocast_to_copy torch aten_detach [VMX mx0]
                (Some [("dtype", VDtype float32)])) as (_ & _ & Hfails).
    apply (Hfails (VDtype float32) eq_refl); discriminate.
  - destruct (@C6_autocast_to_copy torch aten_detach [VMX mx0]
                (Some [("dtype", VDtype bfloat16); ("copy", VBool true)]))
      as (Hiff & _ & _).
    apply fails_not_Ok. intros v Hv.
    apply Hiff in Hv as (m & rest & d & _ & Hkw & _). discriminate Hkw.
Defined.

Lemma C7_mx_desugar_op_witness :
  mx_desugar_op aten_detach [VMX mx0] (Some []) = Ok (VMX mx0) /\
  (exists new,
      mx_desugar_op aten_detach [VMX mx1] (Some []) = Ok (VMX new) /\
      same_metadata mx1 new).
Proof.
  split.
  - destruct (@C7_mx_desugar_op torch aten_detach [VMX mx0] (Some []))
      as (Heq & _).
    rewrite (Heq mx0 [] [] eq_refl eq_refl). reflexivity.
  - destruct (@C7_mx_desugar_op torch aten_detach [VMX mx1] (Some []))
      as (_ & Hmeta).
    destruct (Hmeta (VMX mx1) eq_refl)
      as (old & rest & kw & new & Hargs & _ & Hv & _ & Hsame).
    exists new. injection Hargs as <- <-. injection Hv as <-.
    split; [reflexivity | exact Hsame].
Defined.

Lemma C8_mx_view_op_witness :
  mx_view_op aten_view [VMX mx0; VList [VInt 4; VInt 2]] (Some [])
    = Ok (VMX (with_data mx0 [[1; 2]; [3; 4]; [1 # 2; 1]; [3 # 2; 2]])) /\
  mx_view_op aten_view [VMX mx_fp4; VList [VInt 4; VInt 4]] (Some [])
    = Ok (VMX (with_data mx_fp4 [[1; 2]; [3; 4]; [1 # 2; 1]; [3 # 2; 2]])).
Proof.
  split.
  - destruct (@C8_mx_view_op torch mx aten_view
                [VMX mx0; VList [VInt 4; VInt 2]] (Some []))
      as (_ & Hplain & _).
    rewrite (Hplain mx0 (VList [VInt 4; VInt 2]) [] [] eq_refl eq_refl);
      [reflexivity | discriminate | discriminate].
  - destruct (@C8_mx_view_op torch mx aten_view
                [VMX mx_fp4; VList [VInt 4; VInt 4]] (Some []))
      as (Hfp4 & _ & _).
    rewrite (Hfp4 mx_fp4 (VList [VInt 4; VInt 4]) [] [] eq_refl eq_refl);
      [reflexivity | now left].
Defined.

Lemma C9_mx_cast_up_op_witness :
  mx_cast_up_op aten_sum_dim_IntList [VMX mx0; VList [VInt 0]] (Some [])
    = Ok (tensor_value [[2; 4; 6; 8]]) /\
  mx_cast_up_op aten_cat [VList [VMX mx0; tensor_value [[0; 0; 0; 0]]]; VInt 0]
                (Some [])
    = Ok (tensor_value [[1; 2; 3; 4]; [1; 2; 3; 4]; [0; 0; 0; 0]]) /\
  mx_cast_up_op aten_cat [VList [tensor_value [[0; 0; 0; 0]]]; VInt 0] (Some [])
    = Ok (tensor_value [[0; 0; 0; 0]]).
Proof.
  split; [ | split].
  - destruct (@C9_mx_cast_up_op torch mx aten_sum_dim_IntList
                [VMX mx0; VList [VInt 0]] (Some [])) as (Hiff & _).
    apply Hiff.
    exists [tensor_value [[1; 2; 3; 4]; [1; 2; 3; 4]]; VList [VInt 0]], [], [],
           [[2; 4; 6; 8]].
    split; [reflexivity | ]. split.
    { repeat constructor. }
    split; [constructor | split; reflexivity].
  - destruct (@C9_mx_cast_up_op torch mx aten_cat
                [VList [VMX mx0; tensor_value [[0; 0; 0; 0]]]; VInt 0] (Some []))
      as (Hiff & _).
    apply Hiff.
    exists [VList [tensor_value [[1; 2; 3; 4]; [1; 2; 3; 4]];
                   tensor_value [[0; 0; 0; 0]]]; VInt 0], [], [],
           [[1; 2; 3; 4]; [1; 2; 3; 4]; [0; 0; 0; 0]].
    split; [reflexivity | ]. split.
    { repeat constructor. }
    split; [constructor | split; reflexivity].
  - destruct (@C9_mx_cast_up_op torch mx aten_cat
                [VList [tensor_value [[0; 0; 0; 0]]]; VInt 0] (Some []))
      as (_ & _ & _ & Hplain).
    rewrite (Hplain [] eq_refl eq_refl eq_refl). reflexivity.
Defined.

Lemma C10_mx_t_witness :
  mx_t aten_detach [VMX mx0] (Some [])
    = Ok (VMX (with_data mx0 [[1; 1 # 2]; [2; 1]; [3; 3 # 2]; [4; 2]])) /\
  MXTensor._scale_e8m0
    (with_data mx0 [[1; 1 # 2]; [2; 1]; [3; 3 # 2]; [4; 2]])
    = [[127; 128]].
Proof.
  destruct (@C10_mx_t torch aten_detach [VMX mx0] (Some [])) as (Heq & Hmeta).
  assert (Hrun : mx_t aten_detach [VMX mx0] (Some [])
                 = Ok (VMX (with_data mx0
                              [[1; 1 # 2]; [2; 1]; [3; 3 # 2]; [4; 2]]))).
  { rewrite (Heq mx0 [] eq_refl). reflexivity. }
  split; [exact Hrun | ].
  destruct (Hmeta _ Hrun) as (old & rest & new & Hargs & Hv & _ & Hscale & _).
  inversion Hargs; subst old rest. inversion Hv; subst new. exact Hscale.
Defined.

End Runs.

(** ** More on the fake-quantized layers *)

Section QATLayersMore.
Context {T : Torch} {QP : QuantPrimitives}.

(** [_get_qmin_qmax]: for [n_bit >= 1] the range is the signed
    [n_bit]-bit range: [qmin = -(qmax + 1)], zero is inside, and it has
    [2^n_bit] values. *)
Theorem get_qmin_qmax_signed_range :
  forall n_bit : Z,
    (1 <= n_bit)%Z ->
    (fst (QAT._get_qmin_qmax n_bit) = - (snd (QAT._get_qmin_qmax n_bit) + 1) /\
     fst (QAT._get_qmin_qmax n_bit) < 0 <= snd (QAT._get_qmin_qmax n_bit) /\
     snd (QAT._get_qmin_qmax n_bit) - fst (QAT._get_qmin_qmax n_bit) + 1
       = 2 ^ n_bit)%Z.
Proof.
  intros n_bit Hn. unfold QAT._get_qmin_qmax. simpl.
  assert (Hpos : (0 < 2 ^ (n_bit - 1))%Z) by (apply Z.pow_pos_nonneg; lia).
  assert (Hpow : (2 ^ n_bit = 2 * 2 ^ (n_bit - 1))%Z).
  { replace n_bit with (Z.succ (n_bit - 1)) at 1 by lia.
    apply Z.pow_succ_r. lia. }
  lia.
Qed.

Lemma last_nonempty {A : Type} (a : A) (l : list A) (d d' : A) :
  last (a :: l) d = last (a :: l) d'.
Proof.
  revert a. induction l as [|b l IH]; intros a; [reflexivity | ].
  change (last (b :: l) d = last (b :: l) d'). apply IH.
Qed.

Lemma enable_fake_quant_flag (self : QAT.t) :
  QAT.enable_fake_quant self (QAT._fake_quant_enabled self) = self.
Proof. now destruct self. Qed.

(** The toggles of the 8da4w layer: after any sequence of
    [enable_fake_quant(enabled)] calls the layer is the one the last call
    alone gives (the first calls leave no trace, and no other attribute
    changes); when the last call disables, [forward] is the full-precision
    [F.linear]. *)
Theorem fake_quant_toggles_last_wins :
  forall (self : QAT.t) (toggles : list bool) (x : Tensor),
    fold_left QAT.enable_fake_quant toggles self
      = QAT.enable_fake_quant
          self (last toggles (QAT._fake_quant_enabled self)) /\
    QAT.weight (fold_left QAT.enable_fake_quant toggles self)
      = QAT.weight self /\
    (last toggles (QAT._fake_quant_enabled self) = false ->
     QAT.forward (fold_left QAT.enable_fake_quant toggles self) x
       = F_linear x (QAT.weight self)).
Proof.
  intros self toggles x.
  assert (Hlast : fold_left QAT.enable_fake_quant toggles self
                  = QAT.enable_fake_quant
                      self (last toggles (QAT._fake_quant_enabled self))).
  { revert self. induction toggles as [|b toggles IH]; intros self.
    - simpl. symmetry. apply enable_fake_quant_flag.
    - simpl fold_left. rewrite IH.
      destruct toggles as [|b' toggles']; [reflexivity | ].
      rewrite (last_nonempty b' toggles' _ (QAT._fake_quant_enabled self)).
      reflexivity. }
  rewrite Hlast. split; [reflexivity | split; [reflexivity | ]].
  intros Hoff. rewrite Hoff. reflexivity.
Qed.

(** The two 8da4w visitors change 8da4w layers only, whatever they are
    called on; the later of two calls decides; and after
    [disable_8da4w_fake_quant] the layer computes the full-precision
    [F.linear] of its weight. *)
Theorem visitors_8da4w :
  forall (module : module_obj) (x : Tensor),
    ((forall l, module <> Linear8da4w l) ->
     enable_8da4w_fake_quant module = module /\
     disable_8da4w_fake_quant module = module) /\
    enable_8da4w_fake_quant (disable_8da4w_fake_quant module)
      = enable_8da4w_fake_quant module /\
    disable_8da4w_fake_quant (enable_8da4w_fake_quant module)
      = disable_8da4w_fake_quant module /\
    (forall l,
        module = Linear8da4w l ->
        module_forward (disable_8da4w_fake_quant module) x
          = Some (F_linear x (QAT.weight l)) /\
        module_forward
          (disable_8da4w_fake_quant (enable_8da4w_fake_quant module)) x
          = Some (F_linear x (QAT.weight l))).
Proof.
  intros module x. split; [ | split; [ | split]].
  - intros Hnot. destruct module as [l| |]; try (split; reflexivity).
    now contradiction (Hnot l).
  - now destruct module.
  - now destruct module.
  - intros l ->. split; reflexivity.
Qed.

(** The two 4w visitors do set the flag of a 4w layer, but they never
    change what any module returns: a 4w layer fake-quantizes with the flag
    off, and an 8da4w layer is not touched by them, so
    [disable_4w_fake_quant] leaves its fake quantization on. *)
Theorem visitors_4w_do_not_change_forward :
  forall (module : module_obj) (x : Tensor),
    module_forward (disable_4w_fake_quant module) x = module_forward module x /\
    module_forward (enable_4w_fake_quant module) x = module_forward module x /\
    (forall l,
        module = Linear4w l ->
        exists l',
          disable_4w_fake_quant module = Linear4w l' /\
          W4._fake_quant_enabled l' = false /\
          W4.forward l' x =
            (w_fq <- fake_quantize_weight_affine
                       (W4.weight l) (W4.groupsize l)
                       (W4.scales_precision l) ;;
             F_linear x w_fq)) /\
    (forall l, module = Linear8da4w l -> disable_4w_fake_quant module = module).
Proof.
  intros module x. split; [ | split; [ | split]].
  - now destruct module.
  - now destruct module.
  - intros l ->. exists (W4.disable_fake_quant l).
    split; [reflexivity | split; [reflexivity | ]].
    unfold W4.forward, fake_quantize_weight_affine. simpl.
    destruct (get_groupwise_affine_qparams _ _ _ _) as [[scales zps]|e];
      reflexivity.
  - intros l ->. reflexivity.
Qed.

(** What a constructed 8da4w layer is: construction returns exactly when
    [bias] is false, [in_features % groupsize == 0] and [nn.Linear]
    returns, and then the layer holds the arguments, the weight of
    [nn.Linear], int32 zero points and the flag on.  So every constructed
    layer has a group size that is not zero and divides [in_features]; the
    toggles and a new weight keep that, and [convert] hands it on to the
    quantized layer. *)
Theorem init_8da4w_postconditions :
  forall in_features out_features bias device groupsize precision
         scales_precision (l : QAT.t),
    (QAT.__init__ in_features out_features bias device groupsize precision
                  scales_precision = Ok l <->
     bias = false /\
     py_mod in_features groupsize = Ok 0%Z /\
     exists w,
       Linear_init in_features out_features false device precision = Ok w /\
       l = QAT.mk in_features out_features w groupsize precision
                  scales_precision int32 true) /\
    (QAT.__init__ in_features out_features bias device groupsize precision
                  scales_precision = Ok l ->
     groups_divide l /\
     (forall enabled, groups_divide (QAT.enable_fake_quant l enabled)) /\
     (forall w', groups_divide (QAT.set_weight l w')) /\
     (forall q,
         convert_child l = Ok q ->
         Q8.groupsize q <> 0%Z /\
         (Q8.in_features q mod Q8.groupsize q = 0)%Z)).
Proof.
  intros i o b dev gs p sp l.
  assert (Hiff : QAT.__init__ i o b dev gs p sp = Ok l <->
                 b = false /\
                 py_mod i gs = Ok 0%Z /\
                 exists w,
                   Linear_init i o false dev p = Ok w /\
                   l = QAT.mk i o w gs p sp int32 true).
  { unfold QAT.__init__. split.
    - intros H. apply bind_Ok in H as (w & Hw & H).
      apply bind_Ok in H as (r & Hr & H).
      apply bind_Ok in H as ([] & Hz & H).
      apply bind_Ok in H as ([] & Hb & H).
      destruct b; [discriminate | ].
      destruct (Z.eqb_spec r 0); [subst r | discriminate].
      inversion H; subst. split; [reflexivity | split; [assumption | ]].
      now exists w.
    - intros (-> & Hmod & w & Hw & ->). rewrite Hw. simpl.
      rewrite Hmod. reflexivity. }
  split; [exact Hiff | ].
  intros Hinit. apply Hiff in Hinit as (_ & Hmod & w & _ & ->).
  apply py_mod_Ok_0 in Hmod as [Hgs Hdiv].
  assert (Hinv : groups_divide (QAT.mk i o w gs p sp int32 true))
    by (split; assumption).
  split; [exact Hinv | split; [ | split]].
  - intros enabled. exact Hinv.
  - intros w'. exact Hinv.
  - intros q Hq. apply convert_child_quantized_from in Hq.
    destruct Hq as (Hin & _ & Hg & _). rewrite Hin, Hg. exact Hinv.
Qed.

(** What a constructed 4w layer is: construction returns exactly when
    [bias] is false, [scales_precision] is bfloat16,
    [_check_linear_int4_k] returns [True] and [nn.Linear] returns; the layer
    then holds the arguments and the flag on, so [forward] of a
    constructed layer always computes its qparams in bfloat16. *)
Theorem init_4w_postconditions :
  forall in_features out_features bias device groupsize inner_k_tiles
         precision scales_precision (l : W4.t) (x : Tensor),
    (W4.__init__ in_features out_features bias device groupsize
                 inner_k_tiles precision scales_precision = Ok l <->
     bias = false /\
     scales_precision = bfloat16 /\
     _check_linear_int4_k in_features groupsize inner_k_tiles = Ok true /\
     exists w,
       Linear_init in_features out_features false device precision = Ok w /\
       l = W4.mk in_features out_features w groupsize inner_k_tiles
                 precision bfloat16 true) /\
    (W4.__init__ in_features out_features bias device groupsize
                 inner_k_tiles precision scales_precision = Ok l ->
     forall enabled,
       W4.forward (W4.enable_fake_quant l enabled) x =
         (w_fq <- fake_quantize_weight_affine
                    (W4.weight l) groupsize bfloat16 ;;
          F_linear x w_fq)).
Proof.
  intros i o b dev gs ikt p sp l x.
  assert (Hiff : W4.__init__ i o b dev gs ikt p sp = Ok l <->
                 b = false /\
                 sp = bfloat16 /\
                 _check_linear_int4_k i gs ikt = Ok true /\
                 exists w,
                   Linear_init i o false dev p = Ok w /\
                   l = W4.mk i o w gs ikt p bfloat16 true).
  { unfold W4.__init__. split.
    - intros H. apply bind_Ok in H as (w & Hw & H).
      apply bind_Ok in H as ([] & Hb & H).
      apply bind_Ok in H as ([] & Hsp & H).
      apply bind_Ok in H as (ok & Hok & H).
      destruct b; [discriminate | ].
      destruct (dtype_eqb_spec sp bfloat16); [subst sp | discriminate].
      destruct ok; [ | discriminate]. simpl in H. inversion H; subst.
      split; [reflexivity | split; [reflexivity | split; [assumption | ]]].
      now exists w.
    - intros (-> & -> & Hok & w & Hw & ->). rewrite Hw. simpl.
      rewrite Hok. reflexivity. }
  split; [exact Hiff | ].
  intros Hinit enabled. apply Hiff in Hinit as (_ & _ & _ & w & _ & ->).
  unfold W4.forward, fake_quantize_weight_affine. simpl.
  destruct (get_groupwise_affine_qparams _ _ _ _) as [[scales zps]|e];
    reflexivity.
Qed.

(** When the input and the weight are already on their quantization
    grids (fake quantization returns them unchanged), the 8da4w layer
    returns the same output with the flag on and with the flag off. *)
Theorem forward_8da4w_on_grid :
  forall (self : QAT.t) (x : Tensor) (enabled : bool),
    fake_quantize_activation
      x (QAT.scales_precision self) (QAT.zero_points_precision self) = Ok x ->
    fake_quantize_weight_symmetric
      (QAT.weight self) (QAT.groupsize self) (QAT.scales_precision self)
      (QAT.zero_points_precision self) = Ok (QAT.weight self) ->
    QAT.forward (QAT.enable_fake_quant self enabled) x
      = F_linear x (QAT.weight self).
Proof.
  intros self x enabled Hx Hw. unfold QAT.forward.
  destruct enabled; simpl; [ | reflexivity].
  unfold fake_quantize_activation in Hx.
  unfold fake_quantize_weight_symmetric in Hw.
  destruct (_choose_qparams_per_token_asymmetric _ _ _) as [[s z]|e];
    [ | discriminate].
  simpl in *. rewrite Hx. simpl.
  destruct (get_group_qparams_symmetric _ _ _ _) as [[ws wz]|e];
    [ | discriminate].
  simpl in *. destruct (Tensor_to wz _) as [wz'|e]; [ | discriminate].
  simpl in *. rewrite Hw. reflexivity.
Qed.

End QATLayersMore.

(** ** More on [convert] *)

Section ConvertMore.
Context {T : Torch} {QP : QuantPrimitives}.





End ConvertMore.

(** ** More on the handlers and their table *)

Section MXMore.
Context {T : Torch} {MH : MXHelpers}.

Lemma table_get_set (table : ops_table) (k k' : string) (func : handler) :
  table_get (table_set table k func) k'
    = if String.eqb k k' then Some func else table_get table k'.
Proof.
  induction table as [|[k0 f0] table IH]; simpl.
  - reflexivity.
  - destruct (String.eqb_spec k0 k) as [->|Hk0]; simpl.
    + destruct (String.eqb_spec k k'); reflexivity.
    + destruct (String.eqb_spec k0 k') as [->|Hk0'].
      * destruct (String.eqb_spec k k'); [congruence | reflexivity].
      * exact IH.
Qed.

Lemma table_get_None (table : ops_table) (op : string) :
  table_get table op = None <-> ~ In op (map fst table).
Proof.
  induction table as [|[k f] table IH]; simpl.
  - tauto.
  - destruct (String.eqb_spec k op) as [->|Hk].
    + split; [discriminate | tauto].
    + rewrite IH. tauto.
Qed.

(** The decorator [implements(aten_ops)]: afterwards every overload of
    [aten_ops] maps to the decorated function (replacing what was
    registered for it), every other overload maps to what it mapped to
    before, and the decorated name is bound to the function itself. *)
Theorem implements_registers :
  forall (aten_ops : list string) (func : handler) (table : ops_table)
         (op : string),
    (In op aten_ops ->
     table_get (fst (implements aten_ops func table)) op = Some func) /\
    (~ In op aten_ops ->
     table_get (fst (implements aten_ops func table)) op
       = table_get table op) /\
    snd (implements aten_ops func table) = func.
Proof.
  intros aten_ops func table op. unfold implements. simpl.
  assert (Hget : table_get
                   (fold_left (fun t o => table_set t o func) aten_ops table)
                   op
                 = if existsb (fun o => String.eqb o op) aten_ops
                   then Some func else table_get table op).
  { revert table. induction aten_ops as [|o ops IH]; intros table; simpl.
    - reflexivity.
    - rewrite IH, table_get_set.
      destruct (String.eqb o op); simpl; [ | reflexivity].
      now destruct (existsb _ ops). }
  split; [ | split; [ | reflexivity]].
  - intros Hin. rewrite Hget.
    assert (Hex : existsb (fun o => String.eqb o op) aten_ops = true).
    { apply existsb_exists. exists op. split; [assumption | ].
      apply String.eqb_refl. }
    now rewrite Hex.
  - intros Hnot. rewrite Hget.
    destruct (existsb (fun o => String.eqb o op) aten_ops) eqn:Hex;
      [ | reflexivity].
    apply existsb_exists in Hex as (o & Hin & Heq).
    apply String.eqb_eq in Heq. subst o. contradiction.
Qed.

(** [MX_OPS_TABLE] once the module is loaded: eight overloads are
    registered, each once (no registration replaces another), [aten.mm]
    and [aten.matmul] share [mx_mm], and no other overload has a
    handler. *)
Theorem MX_OPS_TABLE_registrations :
  map fst MX_OPS_TABLE = registered_overloads /\
  NoDup (map fst MX_OPS_TABLE) /\
  table_get MX_OPS_TABLE "aten.detach.default" = Some mx_desugar_op /\
  table_get MX_OPS_TABLE "aten.mm.default" = Some mx_mm /\
  table_get MX_OPS_TABLE "aten.matmul.default" = Some mx_mm /\
  table_get MX_OPS_TABLE "aten.addmm.default" = Some mx_addmm /\
  table_get MX_OPS_TABLE "aten.t.default" = Some mx_t /\
  table_get MX_OPS_TABLE "aten.sum.dim_IntList" = Some mx_cast_up_op /\
  table_get MX_OPS_TABLE "aten.view.default" = Some mx_view_op /\
  table_get MX_OPS_TABLE "aten._to_copy.default" = Some autocast_to_copy /\
  (forall op,
      ~ In op registered_overloads -> table_get MX_OPS_TABLE op = None).
Proof.
  assert (Hkeys : map fst MX_OPS_TABLE = registered_overloads)
    by reflexivity.
  split; [exact Hkeys | split].
  - rewrite Hkeys. unfold registered_overloads.
    repeat (constructor; [simpl; intuition discriminate | ]).
    constructor.
  - repeat (split; [reflexivity | ]).
    intros op Hnot. apply table_get_None. now rewrite Hkeys.
Qed.

(** [mx_addmm]: the second and third operands must both be [MXTensor]s
    (the first one is not looked at); each is decoded to its own
    [_orig_dtype], the operator gets the first operand as it is and the
    two decoded tensors, and its plain result is returned. *)
Theorem mx_addmm_decodes_second_and_third :
  forall (aten_op : aten_op_t) (args : list value) (kwargs : option dict),
    (forall a b c rest,
        args = a :: VMX b :: VMX c :: rest ->
        mx_addmm aten_op args kwargs =
          (b_hp <- to_dtype b (MXTensor._orig_dtype b) ;;
           c_hp <- to_dtype c (MXTensor._orig_dtype c) ;;
           res <- aten_op [a; VTensor b_hp; VTensor c_hp] [] ;;
           Ok (VTensor res))) /\
    ((forall a b c rest, args <> a :: VMX b :: VMX c :: rest) ->
     fails (mx_addmm aten_op args kwargs)) /\
    (forall v,
        mx_addmm aten_op args kwargs = Ok v -> exists res, v = VTensor res).
Proof.
  intros aten_op args kwargs.
  assert (Hshape : forall v,
             mx_addmm aten_op args kwargs = Ok v ->
             exists a b c rest res,
               args = a :: VMX b :: VMX c :: rest /\ v = VTensor res).
  { intros v Hv. unfold mx_addmm in Hv.
    destruct args as [|a [|b [|c rest]]]; try discriminate.
    simpl in Hv. destruct b; try discriminate. destruct c; try discriminate.
    apply bind_Ok in Hv as (b_hp & _ & Hv).
    apply bind_Ok in Hv as (c_hp & _ & Hv).
    apply bind_Ok in Hv as (res & _ & Hv). inversion Hv; subst.
    now exists a, m, m0, rest, res. }
  split; [ | split].
  - intros a b c rest ->. reflexivity.
  - intros Hnot. apply fails_not_Ok. intros v Hv.
    destruct (Hshape v Hv) as (a & b & c & rest & _ & Hargs & _).
    now apply (Hnot a b c rest).
  - intros v Hv. destruct (Hshape v Hv) as (_ & _ & _ & _ & res & _ & ->).
    now exists res.
Qed.

(** [kwargs=None], the default of every handler: [mx_mm], [mx_addmm] and
    [mx_t] never read [kwargs] and behave the same for every value of it,
    [None] included; [mx_desugar_op], [mx_view_op], [mx_cast_up_op] and
    [autocast_to_copy] raise on [None] whatever the operator and the
    arguments are. *)
Theorem kwargs_None :
  forall (aten_op : aten_op_t) (args : list value),
    (forall kwargs,
        mx_mm aten_op args kwargs = mx_mm aten_op args None /\
        mx_addmm aten_op args kwargs = mx_addmm aten_op args None /\
        mx_t aten_op args kwargs = mx_t aten_op args None) /\
    fails (mx_desugar_op aten_op args None) /\
    fails (mx_view_op aten_op args None) /\
    fails (mx_cast_up_op aten_op args None) /\
    fails (autocast_to_copy aten_op args None).
Proof.
  intros aten_op args. split; [ | split; [ | split; [ | split]]].
  - intros kwargs. repeat split.
  - apply fails_not_Ok. intros v Hv. unfold mx_desugar_op in Hv.
    apply bind_Ok in Hv as (a0 & _ & Hv).
    apply bind_Ok in Hv as (old & _ & Hv).
    apply bind_Ok in Hv as (kw & Hkw & _). discriminate.
  - apply fails_not_Ok. intros v Hv. unfold mx_view_op in Hv.
    apply bind_Ok in Hv as (a0 & _ & Hv).
    apply bind_Ok in Hv as (old & _ & Hv).
    apply bind_Ok in Hv as (sz & _ & Hv).
    apply bind_Ok in Hv as (sz' & _ & Hv).
    apply bind_Ok in Hv as (kw & Hkw & _). discriminate.
  - apply fails_not_Ok. intros v Hv. unfold mx_cast_up_op in Hv.
    apply bind_Ok in Hv as (new_args & _ & Hv).
    apply bind_Ok in Hv as (new_kwargs & Hnew & Hv).
    inversion Hnew; subst.
    apply bind_Ok in Hv as (kw & Hkw & _). discriminate.
  - apply fails_not_Ok. intros v Hv. unfold autocast_to_copy in Hv.
    apply bind_Ok in Hv as (a0 & _ & Hv).
    apply bind_Ok in Hv as ([] & _ & Hv). discriminate.
Qed.

(** Which exception a malformed call raises.  Without any argument every
    handler that indexes [args] raises [IndexError]; with a first argument
    that is not an [MXTensor], the handlers that read its attributes raise
    [AttributeError] and those that assert its class raise
    [AssertionError]; [mx_mm] with one operand and [mx_view_op] without a
    size raise [IndexError]. *)
Theorem malformed_calls :
  forall (aten_op : aten_op_t) (kwargs : option dict),
    (mx_desugar_op aten_op [] kwargs = Raise IndexError /\
     mx_mm aten_op [] kwargs = Raise IndexError /\
     mx_addmm aten_op [] kwargs = Raise IndexError /\
     mx_t aten_op [] kwargs = Raise IndexError /\
     mx_view_op aten_op [] kwargs = Raise IndexError /\
     autocast_to_copy aten_op [] kwargs = Raise IndexError) /\
    (forall v rest,
        isinstance_MXTensor v = false ->
        mx_desugar_op aten_op (v :: rest) kwargs = Raise AttributeError /\
        mx_t aten_op (v :: rest) kwargs = Raise AttributeError /\
        mx_view_op aten_op (v :: rest) kwargs = Raise AttributeError /\
        autocast_to_copy aten_op (v :: rest) kwargs = Raise AssertionError /\
        (forall b, mx_mm aten_op (v :: b :: rest) kwargs
                   = Raise AssertionError) /\
        (forall a, mx_mm aten_op (a :: v :: rest) kwargs
                   = Raise AssertionError)) /\
    (forall (a : value) (m : MXTensor.t),
        mx_mm aten_op [a] kwargs = Raise IndexError /\
        mx_view_op aten_op [VMX m] kwargs = Raise IndexError).
Proof.
  intros aten_op kwargs. split; [ | split].
  - repeat split.
  - intros v rest Hv.
    destruct v; try discriminate; repeat split; intros x;
      destruct x; reflexivity.
  - intros a m. split; reflexivity.
Qed.

Lemma autocast_to_copy_run (aten_op : aten_op_t) m rest d :
  autocast_dtype d ->
  autocast_to_copy aten_op (VMX m :: rest) (Some [("dtype", VDtype d)])
    = Ok (VMX (with_orig_dtype m d)).
Proof. intros [-> | ->]; reflexivity. Qed.

(** How [autocast_to_copy] composes.  Of two casts the second one decides
    the declared dtype; and the cast is what a later [mx_mm] decodes with:
    the cast operand is decoded to the target of the cast, the other one to
    its own dtype.  The operator handed to [autocast_to_copy] is never
    called. *)
Theorem autocast_then_matmul :
  forall (cast_op cast_op' mm_op : aten_op_t) (a b : MXTensor.t)
         (rest : list value) (d1 d2 : dtype) (kwargs : option dict),
    autocast_dtype d1 -> autocast_dtype d2 ->
    (a1 <- autocast_to_copy cast_op (VMX a :: rest)
                            (Some [("dtype", VDtype d1)]) ;;
     autocast_to_copy cast_op [a1] (Some [("dtype", VDtype d2)]))
      = autocast_to_copy cast_op' (VMX a :: rest)
                         (Some [("dtype", VDtype d2)]) /\
    (a1 <- autocast_to_copy cast_op (VMX a :: rest)
                            (Some [("dtype", VDtype d1)]) ;;
     mx_mm mm_op [a1; VMX b] kwargs)
      = (a_hp <- to_dtype (with_orig_dtype a d1) d1 ;;
         b_hp <- to_dtype b (MXTensor._orig_dtype b) ;;
         res <- mm_op [VTensor a_hp; VTensor b_hp] [] ;;
         Ok (VTensor res)).
Proof.
  intros cast_op cast_op' mm_op a b rest d1 d2 kwargs H1 H2.
  rewrite !(autocast_to_copy_run cast_op a rest H1).
  rewrite (autocast_to_copy_run cast_op' a rest H2). simpl.
  rewrite (autocast_to_copy_run cast_op (with_orig_dtype a d1) [] H2).
  split; reflexivity.
Qed.

Lemma with_data_same (m : MXTensor.t) : with_data m (MXTensor._data m) = m.
Proof. now destruct m. Qed.

(** Transposing twice: when [t()] of the packed data returns and [t()] of
    that returns the packed data again, [mx_t] after [mx_t] gives back the
    block-scaled tensor it started from, fields and all. *)
Theorem mx_t_twice :
  forall (aten_op : aten_op_t) (m : MXTensor.t) (data_t : Tensor)
         (kwargs : option dict),
    Tensor_t (MXTensor._data m) = Ok data_t ->
    Tensor_t data_t = Ok (MXTensor._data m) ->
    (once <- mx_t aten_op [VMX m] kwargs ;; mx_t aten_op [once] kwargs)
      = Ok (VMX m).
Proof.
  intros aten_op m data_t kwargs Ht Htt. unfold mx_t. simpl.
  rewrite Ht. simpl. rewrite Htt. simpl.
  unfold with_data. destruct m; reflexivity.
Qed.

(** Decoding is idempotent: when [tree_map(unwrap, v)] returns, the
    result contains no [MXTensor], and [tree_map(unwrap, .)] returns it
    unchanged, without decoding anything; a value without [MXTensor] is
    returned as it is whatever [to_dtype] would do. *)
Theorem unwrap_idempotent :
  forall v v' : value,
    (tree_map unwrap v = Ok v' ->
     plain v' = true /\ tree_map unwrap v' = Ok v') /\
    (plain v = true -> tree_map unwrap v = Ok v).
Proof.
  intros v v'. split.
  - intros Hv. apply tree_map_unwrap_decoded in Hv.
    apply decoded_plain in Hv. split; [exact Hv | ].
    apply tree_map_unwrap_decoded. now apply plain_decoded.
  - intros Hp. apply tree_map_unwrap_decoded. now apply plain_decoded.
Qed.

End MXMore.

(** ** More concrete runs *)

Section MoreRuns.
Import QTorch.
Local Open Scope Q_scope.

Lemma get_qmin_qmax_signed_range_witness :
  QAT._get_qmin_qmax 8 = (-128, 127)%Z /\
  (snd (QAT._get_qmin_qmax 4) - fst (QAT._get_qmin_qmax 4) + 1 = 2 ^ 4)%Z.
Proof.
  split; [reflexivity | ].
  apply (@get_qmin_qmax_signed_range 4%Z). lia.
Defined.

Lemma fake_quant_toggles_last_wins_witness :
  QAT.forward (fold_left QAT.enable_fake_quant [false; true; false] layer0) x0
    = Ok [[-1; -1 # 2]].
Proof.
  destruct (@fake_quant_toggles_last_wins torch quant layer0
              [false; true; false] x0) as (_ & _ & Hoff).
  rewrite (Hoff eq_refl). reflexivity.
Defined.

Lemma forward_8da4w_on_grid_witness :
  QAT.forward layer_on_grid x_on_grid = Ok [[-1764; 3129]] /\
  QAT.forward (QAT.disable_fake_quant layer_on_grid) x_on_grid
    = Ok [[-1764; 3129]].
Proof.
  split.
  - etransitivity.
    + exact (@forward_8da4w_on_grid torch quant layer_on_grid x_on_grid true
               eq_refl eq_refl).
    + reflexivity.
  - etransitivity.
    + exact (@forward_8da4w_on_grid torch quant layer_on_grid x_on_grid false
               eq_refl eq_refl).
    + reflexivity.
Defined.

Lemma visitors_8da4w_witness :
  disable_8da4w_fake_quant (Linear4w layer4w) = Linear4w layer4w /\
  module_forward (disable_8da4w_fake_quant (Linear8da4w layer0)) x0
    = Some (Ok [[-1; -1 # 2]]).
Proof.
  split.
  - destruct (@visitors_8da4w torch quant (Linear4w layer4w) x0)
      as (Hother & _).
    apply Hother. intros l Hl. discriminate Hl.
  - destruct (@visitors_8da4w torch quant (Linear8da4w layer0) x0)
      as (_ & _ & _ & Hoff).
    destruct (Hoff layer0 eq_refl) as (-> & _). reflexivity.
Defined.

Lemma visitors_4w_do_not_change_forward_witness :
  module_forward (disable_4w_fake_quant (Linear4w layer4w)) x0
    = Some (Ok [[-13 # 12; -2 # 3]]) /\
  disable_4w_fake_quant (Linear8da4w layer0) = Linear8da4w layer0 /\
  (exists l',
      disable_4w_fake_quant (Linear4w layer4w) = Linear4w l' /\
      W4._fake_quant_enabled l' = false).
Proof.
  destruct (@visitors_4w_do_not_change_forward torch quant
              (Linear4w layer4w) x0) as (Hsame & _ & Hflag & _).
  split; [rewrite Hsame; reflexivity | split].
  - destruct (@visitors_4w_do_not_change_forward torch quant
                (Linear8da4w layer0) x0) as (_ & _ & _ & H8).
    exact (H8 layer0 eq_refl).
  - destruct (Hflag layer4w eq_refl) as (l' & Hl' & Hoff & _).
    exists l'. split; assumption.
Defined.

Lemma init_8da4w_postconditions_witness :
  groups_divide layer0 /\
  (forall q,
      convert_child layer0 = Ok q ->
      (Q8.in_features q mod Q8.groupsize q = 0)%Z).
Proof.
  destruct (@init_8da4w_postconditions torch quant 4%Z 2%Z false None 2%Z
              float32 float32 layer0) as (_ & Hpost).
  destruct (Hpost eq_refl) as (Hinv & _ & _ & Hconv).
  split; [exact Hinv | ].
  intros q Hq. exact (proj2 (Hconv q Hq)).
Defined.

Lemma init_4w_postconditions_witness :
  exists l,
    W4.__init__ 4 2 false None 4 8 bfloat16 bfloat16 = Ok l /\
    W4.scales_precision l = bfloat16 /\
    W4.forward (W4.disable_fake_quant l) x0
      = (w_fq <- fake_quantize_weight_affine (W4.weight l) 4 bfloat16 ;;
         F_linear x0 w_fq).
Proof.
  exists layer4w_fresh.
  destruct (@init_4w_postconditions torch quant 4%Z 2%Z false None 4%Z 8%Z
              bfloat16 bfloat16 layer4w_fresh x0) as (_ & Hfwd).
  split; [reflexivity | split; [reflexivity | ]].
  exact (Hfwd eq_refl false).
Defined.


Lemma implements_registers_witness :
  table_get (fst (implements ["aten.mm.default"] mx_t MX_OPS_TABLE))
            "aten.mm.default" = Some mx_t /\
  table_get (fst (implements ["aten.mm.default"] mx_t MX_OPS_TABLE))
            "aten.matmul.default" = Some mx_mm.
Proof.
  split.
  - destruct (@implements_registers torch ["aten.mm.default"%string]
                mx_t MX_OPS_TABLE "aten.mm.default") as (Hin & _).
    apply Hin. now left.
  - destruct (@implements_registers torch ["aten.mm.default"%string]
                mx_t MX_OPS_TABLE "aten.matmul.default") as (_ & Hout & _).
    rewrite Hout; [reflexivity | ].
    intros [H | []]. discriminate H.
Defined.

Lemma MX_OPS_TABLE_registrations_witness :
  table_get MX_OPS_TABLE "aten.add.Tensor" = None.
Proof.
  destruct (@MX_OPS_TABLE_registrations torch mx)
    as (_ & _ & _ & _ & _ & _ & _ & _ & _ & _ & Hnone).
  apply Hnone. unfold registered_overloads. simpl.
  intuition discriminate.
Defined.

Lemma mx_addmm_decodes_second_and_third_witness :
  mx_addmm aten_addmm [tensor_value [[1; 1]; [1; 1]]; VMX mx0; VMX mx1] None
    = Ok (VTensor [[23; 33]; [23; 33]]) /\
  fails (mx_addmm aten_addmm [VMX mx0; VMX mx1] None).
Proof.
  split.
  - destruct (@mx_addmm_decodes_second_and_third torch mx aten_addmm
                [tensor_value [[1; 1]; [1; 1]]; VMX mx0; VMX mx1] None)
      as (Heq & _).
    rewrite (Heq (tensor_value [[1; 1]; [1; 1]]) mx0 mx1 [] eq_refl).
    reflexivity.
  - destruct (@mx_addmm_decodes_second_and_third torch mx aten_addmm
                [VMX mx0; VMX mx1] None) as (_ & Hfails & _).
    apply Hfails. intros a b c rest Hargs. discriminate Hargs.
Defined.

Lemma malformed_calls_witness :
  mx_t aten_detach [tensor_value [[1; 2]]] (Some []) = Raise AttributeError /\
  autocast_to_copy aten_detach [tensor_value [[1; 2]]]
                   (Some [("dtype", VDtype bfloat16)])
    = Raise AssertionError.
Proof.
  destruct (@malformed_calls torch mx aten_detach (Some [])) as (_ & Hnot & _).
  destruct (Hnot (tensor_value [[1; 2]]) [] eq_refl)
    as (_ & Ht & _ & _).
  split; [exact Ht | ].
  destruct (@malformed_calls torch mx aten_detach
              (Some [("dtype", VDtype bfloat16)])) as (_ & Hnot' & _).
  destruct (Hnot' (tensor_value [[1; 2]]) [] eq_refl)
    as (_ & _ & _ & Hcast & _).
  exact Hcast.
Defined.

Lemma autocast_then_matmul_witness :
  (a1 <- autocast_to_copy aten_detach [VMX mx0]
                          (Some [("dtype", VDtype float16)]) ;;
   mx_mm aten_mm [a1; VMX mx1] None)
    = Ok (VTensor [[22; 32]; [22; 32]]).
Proof.
  destruct (@autocast_then_matmul torch mx aten_detach aten_detach aten_mm
              mx0 mx1 [] float16 bfloat16 None
              (or_introl eq_refl) (or_intror eq_refl)) as (_ & Hmm).
  rewrite Hmm. reflexivity.
Defined.

Lemma mx_t_twice_witness :
  (once <- mx_t aten_detach [VMX mx0] None ;; mx_t aten_detach [once] None)
    = Ok (VMX mx0).
Proof.
  apply (@mx_t_twice torch aten_detach mx0
           [[1; 1 # 2]; [2; 1]; [3; 3 # 2]; [4; 2]] None);
    reflexivity.
Defined.

Lemma unwrap_idempotent_witness :
  tree_map unwrap (VList [tensor_value [[1; 2; 3; 4]; [1; 2; 3; 4]]; VInt 3])
    = Ok (VList [tensor_value [[1; 2; 3; 4]; [1; 2; 3; 4]]; VInt 3]).
Proof.
  destruct (@unwrap_idempotent torch mx (VList [VMX mx0; VInt 3])
              (VList [tensor_value [[1; 2; 3; 4]; [1; 2; 3; 4]]; VInt 3]))
    as (Hidem & _).
  exact (proj2 (Hidem eq_refl)).
Defined.

End MoreRuns.

(** ** [convert] on module objects *)

Section ConvertObjects.
Context {T : Torch} {QP : QuantPrimitives}.

(** C4, at the inputs where the code departs from it.  When one
    fake-quantized layer is registered under two names of a module,
    [convert] rebinds the first name to a new quantized layer and leaves
    the second name bound to the fake-quantized layer ([named_children]
    yields an object once); a second [convert] then converts the second
    name.  And the quantized layer does not keep the precision of the
    scales: its qparams are those of [get_group_qparams_symmetric] called
    without a precision, and the whole layer is the same whatever
    [scales_precision] the fake-quantized layer has. *)
Theorem C4_convert_8da4w_shared_layer :
  forall (l : QAT.t) (q : Q8.t) (cls a b : string) (limit : nat),
    convert_child l = Ok q ->
    a <> b ->
    let h := [Heap.OtherObj cls [(a, Some 1%nat); (b, Some 1%nat)];
              Heap.QATLinearObj l] in
    let h' := [Heap.OtherObj cls [(a, Some 2%nat); (b, Some 1%nat)];
               Heap.QATLinearObj l;
               Heap.QuantizedLinearObj q] in
    Heap.convert (S (S limit)) h 0%nat = Ok h' /\
    Heap.get_child h' 0%nat a = Some (Heap.QuantizedLinearObj q) /\
    Heap.get_child h' 0%nat b = Some (Heap.QATLinearObj l) /\
    Heap.convert (S (S limit)) h' 0%nat
      = Ok [Heap.OtherObj cls [(a, Some 2%nat); (b, Some 3%nat)];
            Heap.QATLinearObj l;
            Heap.QuantizedLinearObj q;
            Heap.QuantizedLinearObj q] /\
    get_group_qparams_symmetric (QAT.weight l) 4 (QAT.groupsize l) None
      = Ok (Q8.scales q, Q8.zeros q) /\
    (forall scales_precision q',
        convert_child (with_scales_precision l scales_precision) = Ok q' ->
        q' = q).
Proof.
  intros l q cls a b limit Hq Hab h h'.
  assert (Hba : String.eqb a b = false) by (now apply String.eqb_neq).
  split; [ | split; [ | split; [ | split; [ | split]]]].
  - unfold Heap.convert, h. simpl. rewrite Hq. simpl.
    unfold Heap.setattr. simpl. rewrite String.eqb_refl. reflexivity.
  - unfold Heap.get_child, h'. simpl. rewrite String.eqb_refl. reflexivity.
  - unfold Heap.get_child, h'. simpl. rewrite Hba, String.eqb_refl.
    reflexivity.
  - unfold Heap.convert, h'. simpl. rewrite Hq. simpl.
    unfold Heap.setattr. simpl. rewrite Hba, String.eqb_refl. reflexivity.
  - apply convert_child_quantized_from in Hq.
    destruct Hq as (_ & _ & _ & _ & Hqp & _). exact Hqp.
  - intros sp q' Hq'. unfold convert_child, Q8.__init__ in Hq, Hq'.
    simpl in Hq'.
    apply bind_Ok in Hq as (q0 & Hq0 & Hq).
    apply bind_Ok in Hq0 as ([[w0 s0] z0] & _ & Hq0).
    inversion Hq0; subst q0; clear Hq0. simpl in Hq.
    apply bind_Ok in Hq' as (q0' & Hq0' & Hq').
    apply bind_Ok in Hq0' as ([[w0' s0'] z0'] & _ & Hq0').
    inversion Hq0'; subst q0'; clear Hq0'. simpl in Hq'.
    destruct (get_group_qparams_symmetric _ _ _ _) as [[s zp]|e];
      [ | discriminate].
    simpl in Hq, Hq'.
    destruct (_quantized_decomposed_quantize_per_channel_group_wrapper
                _ _ _ _ _ _ _) as [q_weight|e]; [ | discriminate].
    simpl in Hq, Hq'. inversion Hq; inversion Hq'; reflexivity.
Qed.




Lemma update_map (f : Heap.module_object -> Heap.module_object)
    (h : Heap.heap) (id : Heap.oid) (o : Heap.module_object) :
  map f (Heap.update h id o) = Heap.update (map f h) id (f o).
Proof.
  revert id. induction h as [|x h IH]; intros [|id]; simpl;
    try reflexivity.
  now rewrite IH.
Qed.

Lemma setattr_set_fake_quant (enabled : bool) (h : Heap.heap) module name
    value :
  Heap.setattr (Heap.set_fake_quant enabled h) module name value
    = (h' <- Heap.setattr h module name value ;;
       Ok (Heap.set_fake_quant enabled h')).
Proof.
  unfold Heap.setattr, Heap.set_fake_quant. rewrite nth_error_map.
  destruct (nth_error h module) as [[l|q|cls ms]|]; simpl; try reflexivity.
  now rewrite update_map.
Qed.

Lemma nth_error_set_fake_quant (enabled : bool) (h : Heap.heap) id :
  nth_error (Heap.set_fake_quant enabled h) id
    = option_map (Heap.set_fake_quant_object enabled) (nth_error h id).
Proof. apply nth_error_map. Qed.

Lemma length_set_fake_quant (enabled : bool) (h : Heap.heap) :
  List.length (Heap.set_fake_quant enabled h) = List.length h.
Proof. apply length_map. Qed.

Lemma set_fake_quant_alloc (enabled : bool) (h : Heap.heap) (q : Q8.t) :
  (Heap.set_fake_quant enabled h ++ [Heap.QuantizedLinearObj q])%list
    = Heap.set_fake_quant enabled (h ++ [Heap.QuantizedLinearObj q])%list.
Proof. unfold Heap.set_fake_quant. now rewrite map_app. Qed.

Lemma for_named_children_cons_heap rec module name child rest (h : Heap.heap) :
  Heap.for_named_children rec module ((name, child) :: rest) h =
    (h' <- match nth_error h child with
           | Some (Heap.QATLinearObj l) =>
               quantized_linear <- convert_child l ;;
               Heap.setattr (h ++ [Heap.QuantizedLinearObj quantized_linear])%list
                            module name (List.length h)
           | Some _ => rec h child
           | None => Raise AttributeError
           end ;;
     Heap.for_named_children rec module rest h').
Proof. reflexivity. Qed.

Lemma for_named_children_set_fake_quant (enabled : bool) rec module items :
  (forall h child,
      rec (Heap.set_fake_quant enabled h) child
        = (h' <- rec h child ;; Ok (Heap.set_fake_quant enabled h'))) ->
  forall h,
    Heap.for_named_children rec module items (Heap.set_fake_quant enabled h)
      = (h' <- Heap.for_named_children rec module items h ;;
         Ok (Heap.set_fake_quant enabled h')).
Proof.
  intros Hrec. induction items as [|[name child] rest IH]; intros h.
  - reflexivity.
  - rewrite !for_named_children_cons_heap, nth_error_set_fake_quant.
    destruct (nth_error h child) as [[l|q|cls ms]|];
      cbn [option_map Heap.set_fake_quant_object].
    + change (convert_child (QAT.enable_fake_quant l enabled))
        with (convert_child l).
      destruct (convert_child l) as [ql|e]; cbn [bind]; [ | reflexivity].
      rewrite length_set_fake_quant, set_fake_quant_alloc,
        setattr_set_fake_quant.
      destruct (Heap.setattr _ module name (List.length h)) as [h1|e];
        cbn [bind]; [apply IH | reflexivity].
    + rewrite Hrec. destruct (rec h child) as [h1|e]; cbn [bind];
        [apply IH | reflexivity].
    + rewrite Hrec. destruct (rec h child) as [h1|e]; cbn [bind];
        [apply IH | reflexivity].
    + reflexivity.
Qed.

(** [convert] never reads [_fake_quant_enabled]: converting after the
    flag of every 8da4w layer was set to [enabled] gives the heap that
    setting the flags after converting gives, and raises what converting
    alone raises.  So the quantized layers [convert] builds, and the names
    it rebinds, are the same with fake quantization on or off; the flag
    stays only on the layers [convert] leaves in place. *)
Theorem convert_commutes_with_fake_quant_flag :
  forall (enabled : bool) (limit : nat) (h : Heap.heap) (model : Heap.oid),
    Heap.convert limit (Heap.set_fake_quant enabled h) model
      = (h' <- Heap.convert limit h model ;;
         Ok (Heap.set_fake_quant enabled h')).
Proof.
  unfold Heap.convert. intros enabled limit.
  induction limit as [|limit IH]; intros h model.
  - reflexivity.
  - cbn [Heap._convert_qat_linear_8da4w].
    rewrite nth_error_set_fake_quant.
    destruct (nth_error h model) as [[l|q|cls ms]|];
      cbn [option_map Heap.set_fake_quant_object]; try reflexivity.
    now apply for_named_children_set_fake_quant.
Qed.

End ConvertObjects.

Section ConvertObjectsRuns.
Import QTorch.
Local Open Scope Q_scope.
Local Open Scope nat_scope.

Example convert_child_layer0 : convert_child layer0 = Ok quantized0.
Proof. reflexivity. Qed.

(** On a tree of different objects every layer is converted. *)
Example convert_model0 : convert model0 = Ok model0'.
Proof. reflexivity. Qed.

Lemma C4_convert_8da4w_shared_layer_witness :
  Heap.convert 2 heap_shared 0
    = Ok [Heap.OtherObj "Model" [("a", Some 2%nat); ("b", Some 1%nat)];
          Heap.QATLinearObj layer0;
          Heap.QuantizedLinearObj quantized0] /\
  Heap.get_child
    [Heap.OtherObj "Model" [("a", Some 2%nat); ("b", Some 1%nat)];
     Heap.QATLinearObj layer0;
     Heap.QuantizedLinearObj quantized0] 0 "b"
    = Some (Heap.QATLinearObj layer0) /\
  (forall q',
      convert_child (with_scales_precision layer0 float16) = Ok q' ->
      q' = quantized0).
Proof.
  assert (Hab : "a"%string <> "b"%string) by discriminate.
  destruct (@C4_convert_8da4w_shared_layer torch quant layer0 quantized0
              "Model" "a" "b" 0%nat eq_refl Hab)
    as (Hconv & _ & Hb & _ & _ & Hsp).
  split; [exact Hconv | split; [exact Hb | ]].
  exact (Hsp float16).
Defined.




Example convert_shared_layer_disabled :
  Heap.convert 2 (Heap.set_fake_quant false heap_shared) 0
    = Ok [Heap.OtherObj "Model" [("a", Some 2%nat); ("b", Some 1%nat)];
          Heap.QATLinearObj (QAT.disable_fake_quant layer0);
          Heap.QuantizedLinearObj quantized0].
Proof. reflexivity. Qed.

End ConvertObjectsRuns.
